(** * mp709.py -- control of MP709 USB HID relays

    A shallow embedding of [mp709.py] and the verification of its
    specification.  The script is sequential Python: it talks to the USB
    stack through the legacy [usb] module, keeps a little mutable state
    (the logger threshold, the fields of its objects) and signals every
    failure with an exception.  The embedding is therefore a state and
    exception monad over a [world] that records, in chronological order,
    everything the program does that can be observed from outside, and the
    USB stack is an oracle [usb_env] which decides, from the history, which
    operation fails and which bytes a device returns. *)

From Stdlib Require Import ZArith List String Ascii Bool Lia.
From Stdlib Require Import DecimalString.
From Stdlib Require Import Strings.Byte.
Import ListNotations.

Open Scope Z_scope.

(** ** Constants of the module (mp709.py, lines 31-39) *)

Definition GET_REPORT : Z := 0x01.
Definition SET_REPORT : Z := 0x09.

Definition HID_REQ_TO_HOST : Z := 0xA1.
Definition HID_REQ_TO_DEV  : Z := 0x21.

Definition REPORT_TYPE_INPUT   : Z := 0x100.
Definition REPORT_TYPE_OUTPUT  : Z := 0x200.
Definition REPORT_TYPE_FEATURE : Z := 0x300.

(** [class relayState] *)
Module relayState.
Definition off      : Z := 0.
Definition on       : Z := 1.
Definition noChange : Z := 3.
Definition toggle   : Z := 4.
End relayState.

(** Levels of the [logging] module. *)
Module logging.
Definition NOTSET  : Z := 0.
Definition DEBUG   : Z := 10.
Definition INFO    : Z := 20.
Definition WARNING : Z := 30.
Definition ERROR   : Z := 40.
End logging.

(** ** What the [usb] module hands to the script

    Descriptors as the legacy PyUSB API presents them: a bus has devices, a
    device has configurations, a configuration has interfaces, each a
    sequence of alternate settings.  [devnum] is the address of the device
    on the bus; it names the device in the history. *)

Record interface := { interfaceNumber : Z }.
Record configuration := { interfaces : list (list interface) }.
Record device := {
  devnum : nat;
  idVendor : Z;
  idProduct : Z;
  configurations : list configuration
}.
Record bus := { devices : list device }.

(** The [buffer] argument of [controlMsg]: a tuple of integers to send, or
    the number of bytes to read. *)
Inductive ctl_buffer :=
| Data (bytes : list Z)
| Length (n : Z).

(** What [controlMsg] returns: the count of bytes written, or the bytes
    that were read (a tuple of integers in 0..255). *)
Inductive ctl_result :=
| Written (n : Z)
| Received (bytes : list byte).

(** Operations on a device or on its handle; the interface arguments are
    the attribute [self.intf], which is [None] after [close]. *)
Inductive usb_op :=
| OpOpen
| OpDetachKernelDriver (i : option interface)
| OpSetConfiguration (c : configuration)
| OpClaimInterface (i : option interface)
| OpSetAltInterface (i : option interface)
| OpReleaseInterface
| OpControlMsg (requestType request : Z) (buffer : ctl_buffer)
               (value index timeout : Z).

(** Methods of [class mp709]; an entry into one of them is recorded in the
    history so that calls can be counted. *)
Inductive method :=
| m_open
| m_close
| m_setPort (state : bool)
| m_getPort
| m_getInfo
| m_str.

(** What a logging call writes.  [LogUnsupportedState k] is the text
    ["Unsupported state, %s" % e] for [e = KeyError(k)]; [LogFormatError]
    is what the handler reports when formatting the record raised (the
    [logging] module catches the exception in [Handler.emit]). *)
Inductive log_msg :=
| LogText (s : string)
| LogUnsupportedState (key : string)
| LogFormatError.

Inductive event :=
| EvBusses                           (* usb.busses() *)
| EvUsb (d : nat) (op : usb_op)      (* an operation attempted on device d *)
| EvCall (self : nat) (m : method)   (* entry into a method of a client *)
| EvLog (level : Z) (msg : log_msg)  (* a record written by the logger *)
| EvPrint (line : string).           (* print(...) *)

(** The program state that outlives a call: the history and the threshold
    of the logger ['mp709'] (its effective level). *)
Record world := {
  trace : list event;
  log_level : Z
}.

(** The USB stack.  Both oracles see the history before the operation. *)
Record usb_env := {
  busses : list bus;
  usb_error : list event -> nat -> usb_op -> bool;
  feature_report : list event -> nat -> list byte
}.

(** ** Exceptions and the monad *)

Inductive exn :=
| ValueError
| IndexError
| TypeError
| KeyError (key : string)
| AttributeError
| RuntimeWarning
| USBError
| GetoptError
| SystemExit (code : Z).

Inductive result (A : Type) :=
| Ok (a : A)
| Raise (e : exn).
Arguments Ok {A} a.
Arguments Raise {A} e.

Definition M (A : Type) : Type := world -> result A * world.

Definition ret {A} (a : A) : M A := fun w => (Ok a, w).

Definition raise {A} (e : exn) : M A := fun w => (Raise e, w).

Definition bind {A B} (m : M A) (k : A -> M B) : M B :=
  fun w =>
    match m w with
    | (Ok a, w') => k a w'
    | (Raise e, w') => (Raise e, w')
    end.

(** [attempt m] runs [m] and hands its outcome to the caller, as the head
    of a [try] statement does. *)
Definition attempt {A} (m : M A) : M (result A) :=
  fun w => let (r, w') := m w in (Ok r, w').

(** A computation that needs no state. *)
Definition lift {A} (r : result A) : M A := fun w => (r, w).

Definition bindR {A B} (r : result A) (k : A -> result B) : result B :=
  match r with
  | Ok a => k a
  | Raise e => Raise e
  end.

Declare Scope monad_scope.
Delimit Scope monad_scope with monad.
Notation "x <- c1 ;; c2" := (bind c1 (fun x => c2))
  (at level 61, c1 at next level, right associativity) : monad_scope.
Notation "c1 ;; c2" := (bind c1 (fun _ => c2))
  (at level 61, right associativity) : monad_scope.
Notation "x <~ c1 ;; c2" := (bindR c1 (fun x => c2))
  (at level 61, c1 at next level, right associativity) : monad_scope.
Open Scope monad_scope.

Definition emit (e : event) : M unit :=
  fun w => (Ok tt, {| trace := trace w ++ [e]; log_level := log_level w |}).

(** ** Python values *)

(** [t[i]] on a tuple of bytes; [controlMsg] gave an integer when it wrote. *)
Definition getitem (buffer : ctl_result) (i : nat) : result Z :=
  match buffer with
  | Received bytes =>
      match nth_error bytes i with
      | Some b => Ok (Z.of_N (Byte.to_N b))
      | None => Raise IndexError
      end
  | Written _ => Raise TypeError
  end.

(** [seq[0]] on a sequence of descriptors. *)
Definition first {A} (l : list A) : result A :=
  match l with
  | x :: _ => Ok x
  | [] => Raise IndexError
  end.

(** ["%d" % n] *)
Definition fmt_d (n : Z) : string := NilZero.string_of_int (Z.to_int n).

(** ** [class mp709] *)

Module mp709.

Definition GET_INFO     : list Z := [0x1D; 0x00; 0x00; 0x00; 0x00; 0x00; 0x00].
Definition SET_PORT_ON  : list Z := [0xE7; 0x00; 0x00; 0x00; 0x00; 0x00; 0x00].
Definition SET_PORT_OFF : list Z := [0xE7; 0x19; 0x00; 0x00; 0x00; 0x00; 0x00].
Definition GET_PORT     : list Z := [0x7E; 0x00; 0x00; 0x00; 0x00; 0x00; 0x00].

Definition REPORT_LEN : Z := 8.

(** The attributes of an instance.  A handle is named by the device it
    was opened on.  [self_id] is the identity of the object (the address
    of the device it was built for); the program never reads it. *)
Record t := {
  self_id : nat;
  handle : option nat;
  dev : option device;
  intf : option interface;
  intfNum : Z
}.

(** The dictionary [getInfo] returns. *)
Record info := {
  info_family : Z;
  info_version : Z;
  info_id : Z
}.

Section WithUsb.
Variable E : usb_env.

(** An operation of the USB stack: recorded, then it raises or not. *)
Definition usb_call (d : nat) (op : usb_op) : M unit :=
  fun w =>
    let w' := {| trace := trace w ++ [EvUsb d op];
                 log_level := log_level w |} in
    if usb_error E (trace w) d op then (Raise USBError, w')
    else (Ok tt, w').

(** [handle.controlMsg(requestType, request, buffer, value, index,
    timeout)]: a write returns the number of bytes, a read the bytes. *)
Definition controlMsg (h : nat) (requestType request : Z)
    (buffer : ctl_buffer) (value index timeout : Z) : M ctl_result :=
  fun w =>
    match usb_call h
            (OpControlMsg requestType request buffer value index timeout)
            w with
    | (Ok _, w') =>
        match buffer with
        | Data bytes => (Ok (Written (Z.of_nat (List.length bytes))), w')
        | Length _ => (Ok (Received (feature_report E (trace w) h)), w')
        end
    | (Raise e, w') => (Raise e, w')
    end.

(** [self.handle.<method>] raises when [self.handle] is [None]. *)
Definition the_handle (self : t) : M nat :=
  match handle self with
  | Some h => ret h
  | None => raise AttributeError
  end.

(** lines 108-114 *)
Definition close (self : t) : M t :=
  emit (EvCall (self_id self) m_close) ;;
  match handle self with
  | Some h => usb_call h OpReleaseInterface
  | None => ret tt
  end ;;
  ret {| self_id := self_id self; handle := None; dev := None;
         intf := None; intfNum := intfNum self |}.

(** lines 94-106 *)
Definition open (self : t) : M t :=
  emit (EvCall (self_id self) m_open) ;;
  self <- match handle self with
          | Some _ => close self
          | None => ret self
          end ;;
  d <- match dev self with
       | Some d => ret d
       | None => raise AttributeError
       end ;;
  usb_call (devnum d) OpOpen ;;
  let h := devnum d in
  let self := {| self_id := self_id self; handle := Some h;
                 dev := dev self; intf := intf self;
                 intfNum := intfNum self |} in
  attempt (usb_call h (OpDetachKernelDriver (intf self))) ;;
  c <- lift (first (configurations d)) ;;
  usb_call h (OpSetConfiguration c) ;;
  usb_call h (OpClaimInterface (intf self)) ;;
  usb_call h (OpSetAltInterface (intf self)) ;;
  ret self.

(** lines 118-128 *)
Definition setPort (self : t) (state : bool) (timeout : Z) : M ctl_result :=
  emit (EvCall (self_id self) (m_setPort state)) ;;
  let buffer := if state then SET_PORT_ON else SET_PORT_OFF in
  h <- the_handle self ;;
  controlMsg h HID_REQ_TO_DEV SET_REPORT (Data buffer)
             REPORT_TYPE_FEATURE (intfNum self) timeout.

(** lines 145-147: the value of
    [(buffer[1] == buffer[2]) and (buffer[1] == portOn)] *)
Definition getPort_decode (buffer : ctl_result) : result bool :=
  let portOn := 0x00 in
  let portOff := 0x19 in
  b1 <~ getitem buffer 1 ;;
  b2 <~ getitem buffer 2 ;;
  if b1 =? b2 then
    b1' <~ getitem buffer 1 ;;
    Ok (b1' =? portOn)
  else Ok false.

(** lines 130-147 *)
Definition getPort (self : t) (timeout : Z) : M bool :=
  emit (EvCall (self_id self) m_getPort) ;;
  h <- the_handle self ;;
  controlMsg h HID_REQ_TO_DEV SET_REPORT (Data GET_PORT)
             REPORT_TYPE_FEATURE (intfNum self) timeout ;;
  buffer <- controlMsg h HID_REQ_TO_HOST GET_REPORT (Length REPORT_LEN)
                       REPORT_TYPE_FEATURE (intfNum self) timeout ;;
  lift (getPort_decode buffer).

(** lines 164-168 *)
Definition getInfo_decode (buffer : ctl_result) : result info :=
  family <~ getitem buffer 1 ;;
  b2 <~ getitem buffer 2 ;;
  b3 <~ getitem buffer 3 ;;
  let version := b2 + b3 * Z.shiftl 1 8 in
  b7 <~ getitem buffer 7 ;;
  b6 <~ getitem buffer 6 ;;
  b5 <~ getitem buffer 5 ;;
  b4 <~ getitem buffer 4 ;;
  let id := b7 + b6 * Z.shiftl 1 8 + b5 * Z.shiftl 1 16
            + b4 * Z.shiftl 1 24 in
  Ok {| info_family := family; info_version := version; info_id := id |}.

(** lines 149-168 *)
Definition getInfo (self : t) (timeout : Z) : M info :=
  emit (EvCall (self_id self) m_getInfo) ;;
  h <- the_handle self ;;
  controlMsg h HID_REQ_TO_DEV SET_REPORT (Data GET_INFO)
             REPORT_TYPE_FEATURE (intfNum self) timeout ;;
  buffer <- controlMsg h HID_REQ_TO_HOST GET_REPORT (Length REPORT_LEN)
                       REPORT_TYPE_FEATURE (intfNum self) timeout ;;
  lift (getInfo_decode buffer).

(** lines 59-75.  The attributes are gathered before [open] runs; an
    instance whose construction raises is unreachable afterwards. *)
Definition __init__ (device : device) (id : Z) : M t :=
  if (negb (idVendor device =? 0x16C0)) || (negb (idProduct device =? 0x05DF))
  then raise ValueError
  else
    conf <- lift (first (configurations device)) ;;
    alts <- lift (first (interfaces conf)) ;;
    i <- lift (first alts) ;;
    let self := {| self_id := devnum device; handle := None;
                   dev := Some device; intf := Some i;
                   intfNum := interfaceNumber i |} in
    self <- open self ;;
    if negb (id =? 0) then
      info <- getInfo self 100 ;;
      if negb (info_id info =? id) then
        close self ;;
        raise ValueError
      else ret self
    else ret self.

(** lines 77-79.  The interpreter calls [__del__] when it finalises the
    instance; when that happens is not fixed by the language, so nothing
    in the embedding calls it. *)
Definition __del__ (self : t) : M t :=
  match handle self with
  | Some _ => close self
  | None => ret self
  end.

(** lines 81-92 *)
Definition __str__ (self : t) : M string :=
  emit (EvCall (self_id self) m_str) ;;
  match handle self with
  | Some _ =>
      info <- getInfo self 100 ;;
      let str := " "%string in
      let str := (str ++ ("family (" ++ fmt_d (info_family info) ++ "), "))%string in
      let str := (str ++ ("fw version (" ++ fmt_d (info_version info) ++ "), "))%string in
      let str := (str ++ ("id (" ++ fmt_d (info_id info) ++ "), "))%string in
      p <- getPort self 100 ;;
      ret (str ++ ("state (" ++ fmt_d (Z.b2z p) ++ ")"))%string
  | None => ret "No MP709 device"%string
  end.

End WithUsb.

End mp709.

(** ** The logger [log = logging.getLogger('mp709')]

    The logger as [main] configures it: [basicConfig] installs one stream
    handler on the root logger, and [log_level] is the effective level of
    ['mp709'].  A call below the threshold returns at once and never looks
    at its argument; a call at or above it formats the record, which for an
    object means [str(msg)], and an exception raised while formatting is
    caught by the handler and reported, not propagated. *)

Module log.

(** The arguments the script gives to a logging call. *)
Inductive arg :=
| Str (s : string)            (* a text *)
| StrKey (key : string)       (* "Unsupported state, %s" % KeyError(key) *)
| Mismatch (s : string)       (* a text without conversion, and an argument *)
| Obj (r : mp709.t).          (* an mp709 instance *)

Definition isEnabledFor (level : Z) : M bool :=
  fun w => (Ok (log_level w <=? level), w).

Definition setLevel (level : Z) : M unit :=
  fun w => (Ok tt, {| trace := trace w; log_level := level |}).

Section WithUsb.
Variable E : usb_env.

Definition handle (level : Z) (msg : arg) : M unit :=
  match msg with
  | Str s => emit (EvLog level (LogText s))
  | StrKey k => emit (EvLog level (LogUnsupportedState k))
  | Mismatch _ => emit (EvLog level LogFormatError)
  | Obj r =>
      o <- attempt (mp709.__str__ E r) ;;
      match o with
      | Ok s => emit (EvLog level (LogText s))
      | Raise _ => emit (EvLog level LogFormatError)
      end
  end.

Definition log (level : Z) (msg : arg) : M unit :=
  enabled <- isEnabledFor level ;;
  if enabled then handle level msg else ret tt.

Definition info (msg : arg) : M unit := log logging.INFO msg.
Definition error (msg : arg) : M unit := log logging.ERROR msg.

End WithUsb.

End log.

(** ** [class relaysControl] *)

Module relaysControl.

Record t := {
  state : Z;
  id : Z
}.

(** lines 172-174 *)
Definition __init__ : t :=
  {| state := relayState.noChange; id := 0 |}.

(** The dictionary of [setState], in the order it is written. *)
Definition states : list (string * Z) :=
  [ ("on"%string,       relayState.on);
    ("off"%string,      relayState.off);
    ("noChange"%string, relayState.noChange);
    ("toggle"%string,   relayState.toggle) ].

(** [d[key]] *)
Fixpoint lookup (key : string) (d : list (string * Z)) : result Z :=
  match d with
  | [] => Raise (KeyError key)
  | (k, v) :: d' => if String.eqb k key then Ok v else lookup key d'
  end.

Section WithUsb.
Variable E : usb_env.

(** lines 181-187: the inner loop of [enumerateRelays] *)
Fixpoint enumerate_devices (self : t) (devs : list device)
    (relays : list mp709.t) : M (list mp709.t) :=
  match devs with
  | [] => ret relays
  | dev :: devs' =>
      o <- attempt (mp709.__init__ E dev (id self)) ;;
      match o with
      | Ok relay => enumerate_devices self devs' (relays ++ [relay])
      | Raise ValueError => enumerate_devices self devs' relays
      | Raise e => raise e
      end
  end.

(** lines 179-187: the outer loop *)
Fixpoint enumerate_busses (self : t) (bs : list bus)
    (relays : list mp709.t) : M (list mp709.t) :=
  match bs with
  | [] => ret relays
  | b :: bs' =>
      relays <- enumerate_devices self (devices b) relays ;;
      enumerate_busses self bs' relays
  end.

(** lines 176-191 *)
Definition enumerateRelays (self : t) : M (list mp709.t) :=
  emit EvBusses ;;
  let busses := busses E in
  relays <- enumerate_busses self busses [] ;;
  if Z.of_nat (List.length relays) =? 0 then
    log.info E (log.Str "No relay found") ;;
    raise RuntimeWarning
  else ret relays.

(** lines 193-204 *)
Definition setState (self : t) (state_in : string) : M t :=
  match lookup state_in states with
  | Raise (KeyError k) =>
      log.error E (log.StrKey k) ;;
      raise (KeyError k)
  | Raise e => raise e
  | Ok state => ret {| state := state; id := id self |}
  end.

(** lines 210-216: the body of the loop of [controlRelays] *)
Definition controlRelay (self : t) (r : mp709.t) : M unit :=
  (if (state self =? relayState.on) || (state self =? relayState.off) then
     mp709.setPort E r (state self =? relayState.on) 100 ;;
     ret tt
   else if state self =? relayState.toggle then
     p <- mp709.getPort E r 100 ;;
     mp709.setPort E r (negb p) 100 ;;
     ret tt
   else ret tt) ;;
  log.info E (log.Obj r).

(** lines 209-216 *)
Fixpoint controlRelays (self : t) (relays : list mp709.t) : M unit :=
  match relays with
  | [] => ret tt
  | r :: relays' =>
      controlRelay self r ;;
      controlRelays self relays'
  end.

(** lines 218-223; the handler only raises again. *)
Definition main (self : t) : M unit :=
  relays <- enumerateRelays self ;;
  controlRelays self relays.

End WithUsb.

Section WithInt.
(** The builtin [int] on a string: [None] when it raises. *)
Variable int : string -> option Z.

(** lines 206-207 *)
Definition setId (self : t) (id : string) : M t :=
  match int id with
  | Some n => ret {| state := state self; id := n |}
  | None => raise ValueError
  end.

End WithInt.

End relaysControl.

(** ** The command line (lines 228-283) *)

Definition sys_exit {A} (code : Z) : M A := raise (SystemExit code).

Definition print (line : string) : M unit := emit (EvPrint line).

(** lines 228-238 *)
Definition usage {A} : M A :=
  print "Usage: mp709.py [--state 0] [--id 3758]" ;;
  print "  -h | --help    : print this help" ;;
  print "  -V | --version : version" ;;
  print "  -s | --state   : control state of the relay. Possible values are: " ;;
  print "                   on, off, noChange, toggle" ;;
  print "                   Default value is noChange." ;;
  print "  -i | --id      : control only relay with certain id. " ;;
  print "                   0 means control all relays. By default is 0" ;;
  print "  -v | --verbose : increase verbosity" ;;
  sys_exit 2.

(** lines 241-243 *)
Definition version {A} : M A :=
  print "mp709.py, v. 1.0 2015/05/30 Andrey Skvortsov" ;;
  sys_exit 0.

(** [o in (a, b)] on strings *)
Definition one_of (o a b : string) : bool := String.eqb o a || String.eqb o b.

Section CommandLine.
Variable E : usb_env.

(** [getopt.getopt(argv, "hVs:i:v", [...])] and [int], from the Python
    library; [getopt] raises [GetoptError] or returns options and
    arguments. *)
Variable getopt : list string -> option (list (string * string) * list string).
Variable int : string -> option Z.

(** lines 262-272: the loop over the options *)
Fixpoint main_options (opts : list (string * string))
    (control : relaysControl.t) (verbose : Z) : M (relaysControl.t * Z) :=
  match opts with
  | [] => ret (control, verbose)
  | (o, a) :: opts' =>
      if one_of o "-h" "--help" then usage
      else if one_of o "-V" "--version" then version
      else if one_of o "-s" "--state" then
        control <- relaysControl.setState E control a ;;
        main_options opts' control verbose
      else if one_of o "-i" "--id" then
        control <- relaysControl.setId int control a ;;
        main_options opts' control verbose
      else if one_of o "-v" "--verbose" then
        main_options opts' control (Z.max 0 (verbose - 10))
      else main_options opts' control verbose
  end.

(** lines 246-280 *)
Definition main (argv : list string) : M unit :=
  let control := relaysControl.__init__ in
  log.setLevel logging.NOTSET ;;       (* logging.basicConfig(level = NOTSET) *)
  let verbose := 30 in
  opts <- match getopt argv with
          | Some (opts, args) => ret opts
          | None =>
              log.error E (log.Mismatch "Unknown option:") ;;
              usage
          end ;;
  o <- attempt (
         cv <- main_options opts control verbose ;;
         log.setLevel (snd cv) ;;
         relaysControl.main E (fst cv)) ;;
  match o with
  | Ok _ => ret tt
  | Raise (SystemExit code) => raise (SystemExit code)
  | Raise _ =>
      log.error E (log.Str "Failed") ;;
      sys_exit 3
  end.

End CommandLine.

(** * Vocabulary of the specification *)

(** ** Reading the history *)

Definition method_eqb (m m' : method) : bool :=
  match m, m' with
  | m_open, m_open | m_close, m_close | m_getPort, m_getPort
  | m_getInfo, m_getInfo | m_str, m_str => true
  | m_setPort b, m_setPort b' => Bool.eqb b b'
  | _, _ => false
  end.

(** The call of method [m] on the client [self]. *)
Definition is_call (self : nat) (m : method) (e : event) : bool :=
  match e with
  | EvCall s m' => method_eqb m' m && Nat.eqb s self
  | _ => false
  end.

(** A call of [setPort] or of [getPort], on any client. *)
Definition is_port_call (e : event) : bool :=
  match e with
  | EvCall _ (m_setPort _) | EvCall _ m_getPort => true
  | _ => false
  end.

(** A call of [setPort], on any client. *)
Definition is_setPort_call (e : event) : bool :=
  match e with
  | EvCall _ (m_setPort _) => true
  | _ => false
  end.

(** A call of [__str__], on any client. *)
Definition is_str_call (e : event) : bool :=
  match e with
  | EvCall _ m_str => true
  | _ => false
  end.

(** A call of [getInfo], on any client. *)
Definition is_getInfo_call (e : event) : bool :=
  match e with
  | EvCall _ m_getInfo => true
  | _ => false
  end.

(** A control transfer, in either direction. *)
Definition is_transfer (e : event) : bool :=
  match e with
  | EvUsb _ (OpControlMsg _ _ _ _ _ _) => true
  | _ => false
  end.

Definition bytes_eqb (a b : list Z) : bool :=
  (Nat.eqb (List.length a) (List.length b))
  && forallb (fun p => fst p =? snd p) (combine a b).

(** A transfer that changes the relay: a report written to the device
    that carries one of the two SET_PORT commands. *)
Definition is_mutating (e : event) : bool :=
  match e with
  | EvUsb _ (OpControlMsg _ _ (Data b) _ _ _) =>
      bytes_eqb b mp709.SET_PORT_ON || bytes_eqb b mp709.SET_PORT_OFF
  | _ => false
  end.

(** Anything that touches the bus or a device: the enumeration, an
    operation of the USB stack, a method of a client. *)
Definition is_device_io (e : event) : bool :=
  match e with
  | EvBusses | EvUsb _ _ | EvCall _ _ => true
  | _ => false
  end.

Definition count (P : event -> bool) (t : list event) : nat :=
  List.length (filter P t).

(** ** Computations that add no event of a given kind *)

(** The world after the events [delta]. *)
Definition extend (w : world) (delta : list event) : world :=
  {| trace := trace w ++ delta; log_level := log_level w |}.

(** [quiet P m]: from any world, [m] only extends the history, none of the
    events it adds satisfies [P], and the logger keeps its threshold. *)
Definition quiet (P : event -> bool) {A} (m : M A) : Prop :=
  forall w, exists delta,
    snd (m w) = extend w delta
    /\ Forall (fun e => P e = false) delta.

(** No event at all: [quiet no_event m] says that [m] only extends the
    history. *)
Definition no_event (e : event) : bool := false.

(** A call of [__str__] or anything that sets a relay. *)
Definition is_str_or_change (e : event) : bool :=
  is_str_call e || is_setPort_call e || is_mutating e.

(** ** The exchange of a query

    [getPort] and [getInfo] write a command report and read one report
    back.  The names below describe that exchange from outside: the two
    transfers, what it means that both succeed and that the device answers
    [bytes], and the world the exchange leaves. *)

Definition report_write (self : mp709.t) (command : list Z) (timeout : Z)
    : usb_op :=
  OpControlMsg HID_REQ_TO_DEV SET_REPORT (Data command)
               REPORT_TYPE_FEATURE (mp709.intfNum self) timeout.

Definition report_read (self : mp709.t) (timeout : Z) : usb_op :=
  OpControlMsg HID_REQ_TO_HOST GET_REPORT (Length mp709.REPORT_LEN)
               REPORT_TYPE_FEATURE (mp709.intfNum self) timeout.

Definition exchange (self : mp709.t) (h : nat) (m : method)
    (command : list Z) (timeout : Z) : list event :=
  [ EvCall (mp709.self_id self) m;
    EvUsb h (report_write self command timeout);
    EvUsb h (report_read self timeout) ].

Definition answers (E : usb_env) (self : mp709.t) (h : nat) (m : method)
    (command : list Z) (timeout : Z) (w : world) (bytes : list byte) : Prop :=
  let t1 := trace w ++ [EvCall (mp709.self_id self) m] in
  let t2 := t1 ++ [EvUsb h (report_write self command timeout)] in
  usb_error E t1 h (report_write self command timeout) = false
  /\ usb_error E t2 h (report_read self timeout) = false
  /\ feature_report E t2 h = bytes.

(** [buffer[i]] of a response, as an integer. *)
Definition byte_at (bytes : list byte) (i : nat) : Z :=
  Z.of_N (Byte.to_N (nth i bytes x00)).

(** ** A response built to the documented layout

    Family in byte 1, version in bytes 2-3 with the low byte first, id in
    bytes 4-7 with the high byte first; byte 0 is free. *)

Definition byte_of_Z (z : Z) : byte :=
  match Byte.of_N (Z.to_N z) with
  | Some b => b
  | None => x00
  end.

Definition info_response (b0 : byte) (family version id : Z) : list byte :=
  [ b0;
    byte_of_Z family;
    byte_of_Z (version mod 256);
    byte_of_Z (version / 256);
    byte_of_Z (id / 2 ^ 24);
    byte_of_Z ((id / 2 ^ 16) mod 256);
    byte_of_Z ((id / 2 ^ 8) mod 256);
    byte_of_Z (id mod 256) ].

(** ** The session of a client *)

(** The instance as [__init__] has filled it in when it calls [open]. *)
Definition fresh (device : device) (i : interface) : mp709.t :=
  {| mp709.self_id := devnum device; mp709.handle := None;
     mp709.dev := Some device; mp709.intf := Some i;
     mp709.intfNum := interfaceNumber i |}.

(** What a successful [open] adds to the history. *)
Definition open_events (device : device) (c : configuration) (i : interface)
    : list event :=
  [ EvCall (devnum device) m_open;
    EvUsb (devnum device) OpOpen;
    EvUsb (devnum device) (OpDetachKernelDriver (Some i));
    EvUsb (devnum device) (OpSetConfiguration c);
    EvUsb (devnum device) (OpClaimInterface (Some i));
    EvUsb (devnum device) (OpSetAltInterface (Some i)) ].

(** What [close] adds to the history of a client with an open session. *)
Definition close_events (self : mp709.t) (h : nat) : list event :=
  [ EvCall (mp709.self_id self) m_close; EvUsb h OpReleaseInterface ].

(** ** The command line *)

(** The options that end the program at once. *)
Definition exits_early (oa : string * string) : bool :=
  one_of (fst oa) "-h" "--help" || one_of (fst oa) "-V" "--version".

(** ** A test bench

    One bus; no operation fails; every device answers every read with the
    same report. *)
Module Bench.

Definition ifc : interface := {| interfaceNumber := 0 |}.
Definition cfg : configuration := {| interfaces := [[ifc]] |}.

Definition relay (n : nat) : device :=
  {| devnum := n; idVendor := 0x16C0; idProduct := 0x05DF;
     configurations := [cfg] |}.

Definition stranger (n : nat) : device :=
  {| devnum := n; idVendor := 0x046D; idProduct := 0xC077;
     configurations := [cfg] |}.

Definition env (devs : list device) (report : list byte) : usb_env :=
  {| busses := [ {| devices := devs |} ];
     usb_error := fun _ _ _ => false;
     feature_report := fun _ _ => report |}.

(** An open client on [relay n]. *)
Definition client (n : nat) : mp709.t :=
  {| mp709.self_id := n; mp709.handle := Some n;
     mp709.dev := Some (relay n); mp709.intf := Some ifc;
     mp709.intfNum := 0 |}.

Definition start (level : Z) : world := {| trace := []; log_level := level |}.

(** Family 1, version 0x0302, id 20; as a GET_PORT answer: relay off. *)
Definition report_off : list byte := [x1d; x01; x02; x03; x00; x00; x00; x14].
(** As a GET_PORT answer: relay on. *)
Definition report_on : list byte := [x7e; x00; x00; x00; x00; x00; x00; x00].

Definition getopt_pairs (opts : list (string * string)) (argv : list string)
    : option (list (string * string) * list string) :=
  Some (opts, []).

Definition int_none (s : string) : option Z := None.

End Bench.


(** * More vocabulary *)

(** What the status of one client adds to the history when the logger
    admits INFO: the call of [__str__] on that client first, the record
    last, and between them neither another [__str__] call nor a
    [setPort] call nor a mutating transfer. *)
Definition status_block (r : mp709.t) (blk : list event) : Prop :=
  exists d msg,
    blk = EvCall (mp709.self_id r) m_str :: d ++ [EvLog logging.INFO msg]
    /\ Forall (fun e => is_str_or_change e = false) d.


(** The instance once [open] has succeeded on [device]. *)
Definition opened (device : device) (i : interface) : mp709.t :=
  {| mp709.self_id := devnum device; mp709.handle := Some (devnum device);
     mp709.dev := Some device; mp709.intf := Some i;
     mp709.intfNum := interfaceNumber i |}.

(** The four operations [open] depends on do not raise; the histories are
    those at which [open] attempts them.  [detachKernelDriver] is not
    among them. *)
Definition session_ok (E : usb_env) (device : device) (c : configuration)
    (i : interface) (w : world) : Prop :=
  let d := devnum device in
  let t1 := trace w ++ [EvCall d m_open] in
  let t2 := t1 ++ [EvUsb d OpOpen] in
  let t3 := t2 ++ [EvUsb d (OpDetachKernelDriver (Some i))] in
  let t4 := t3 ++ [EvUsb d (OpSetConfiguration c)] in
  let t5 := t4 ++ [EvUsb d (OpClaimInterface (Some i))] in
  usb_error E t1 d OpOpen = false
  /\ usb_error E t3 d (OpSetConfiguration c) = false
  /\ usb_error E t4 d (OpClaimInterface (Some i)) = false
  /\ usb_error E t5 d (OpSetAltInterface (Some i)) = false.

(** A call [setPort(b)], on any client. *)
Definition is_setPort_of (b : bool) (e : event) : bool :=
  match e with
  | EvCall _ (m_setPort b') => Bool.eqb b' b
  | _ => false
  end.

(** The call [setPort(b)] on the client [r], and the write it attempts:
    the SET_PORT report on the handle of [r] (none without a handle). *)
Definition setPort_call (b : bool) (r : mp709.t) : event :=
  EvCall (mp709.self_id r) (m_setPort b).

Definition setPort_write (b : bool) (r : mp709.t) : list event :=
  match mp709.handle r with
  | Some h =>
      [EvUsb h (report_write r (if b then mp709.SET_PORT_ON
                                else mp709.SET_PORT_OFF) 100)]
  | None => []
  end.

(** [l1] is [l2] with some elements left out, order kept. *)
Inductive subseq {A : Type} : list A -> list A -> Prop :=
| subseq_nil : subseq [] []
| subseq_skip x l1 l2 : subseq l1 l2 -> subseq l1 (x :: l2)
| subseq_take x l1 l2 : subseq l1 l2 -> subseq (x :: l1) (x :: l2).

(** All devices, bus after bus. *)
Definition all_devices (E : usb_env) : list device :=
  List.concat (List.map devices (busses E)).

(** The clients of a selection of devices, each with its interface. *)
Definition selected (sel : list (device * interface)) : list mp709.t :=
  map (fun p => opened (fst p) (snd p)) sel.

Definition right_identity (p : device * interface) : Prop :=
  idVendor (fst p) = 0x16C0 /\ idProduct (fst p) = 0x05DF.

(** The interface [__init__] picks: the first alternate setting of the
    first interface of the first configuration. *)
Definition first_interface (d : device) : option interface :=
  match configurations d with
  | c :: _ =>
      match interfaces c with
      | (i :: _) :: _ => Some i
      | _ => None
      end
  | [] => None
  end.

(** The id in bytes 4..7 of a response. *)
Definition decoded_id (bytes : list byte) : Z :=
  byte_at bytes 7 + byte_at bytes 6 * 256 + byte_at bytes 5 * 65536
  + byte_at bytes 4 * 16777216.

(** A stack that never fails and on which the device at address [d]
    always answers [rep d]. *)
Definition ideal (E : usb_env) (rep : nat -> list byte) : Prop :=
  (forall t d op, usb_error E t d op = false)
  /\ (forall t d, feature_report E t d = rep d).

(** The device has the identity of the relay and meets the filter. *)
Definition device_matches (rep : nat -> list byte) (k : Z) (d : device)
    : bool :=
  (idVendor d =? 0x16C0) && (idProduct d =? 0x05DF)
  && ((k =? 0) || (decoded_id (rep (devnum d)) =? k)).

Definition client_of (d : device) : list mp709.t :=
  match first_interface d with
  | Some i => [opened d i]
  | None => []
  end.

(** The descriptor has an interface and the device answers with at
    least eight bytes. *)
Definition well_formed (rep : nat -> list byte) (d : device) : Prop :=
  first_interface d <> None /\ (8 <= List.length (rep (devnum d)))%nat.

(** [never_exits m]: [m] does not raise [SystemExit]. *)
Definition never_exits {A} (m : M A) : Prop :=
  forall w c, fst (m w) <> Raise (SystemExit c).

(** The states a controller can be in. *)
Definition valid_state (s : Z) : Prop :=
  s = relayState.off \/ s = relayState.on
  \/ s = relayState.noChange \/ s = relayState.toggle.

Definition is_verbose (oa : string * string) : bool :=
  one_of (fst oa) "-v" "--verbose".

(** An option the loop of [main] gets past: not help, not version, a
    state that is supported, an id that [int] accepts. *)
Definition passes (int : string -> option Z) (oa : string * string) : bool :=
  let (o, a) := oa in
  if one_of o "-h" "--help" then false
  else if one_of o "-V" "--version" then false
  else if one_of o "-s" "--state" then
    match relaysControl.lookup a relaysControl.states with
    | Ok _ => true
    | Raise _ => false
    end
  else if one_of o "-i" "--id" then
    match int a with
    | Some _ => true
    | None => false
    end
  else true.

(** What [usage] and [version] print. *)
Definition usage_lines : list event :=
  [ EvPrint "Usage: mp709.py [--state 0] [--id 3758]";
    EvPrint "  -h | --help    : print this help";
    EvPrint "  -V | --version : version";
    EvPrint "  -s | --state   : control state of the relay. Possible values are: ";
    EvPrint "                   on, off, noChange, toggle";
    EvPrint "                   Default value is noChange.";
    EvPrint "  -i | --id      : control only relay with certain id. ";
    EvPrint "                   0 means control all relays. By default is 0";
    EvPrint "  -v | --verbose : increase verbosity" ].

Definition version_lines : list event :=
  [ EvPrint "mp709.py, v. 1.0 2015/05/30 Andrey Skvortsov" ].

(** ** More of the test bench *)
Module Bench2.

(** A stack on which [detachKernelDriver] always raises, and nothing
    else does. *)
Definition env_no_detach (devs : list device) (report : list byte) : usb_env :=
  {| busses := [ {| devices := devs |} ];
     usb_error := fun _ _ op =>
       match op with
       | OpDetachKernelDriver _ => true
       | _ => false
       end;
     feature_report := fun _ _ => report |}.

(** A stack on which every control transfer raises. *)
Definition env_no_transfer (devs : list device) : usb_env :=
  {| busses := [ {| devices := devs |} ];
     usb_error := fun _ _ op =>
       match op with
       | OpControlMsg _ _ _ _ _ _ => true
       | _ => false
       end;
     feature_report := fun _ _ => [] |}.

(** Two relays on one bus: the one at address 2 reports id 10, every
    other address reports id 20.  Nothing fails. *)
Definition report_id10 : list byte := [x1d; x01; x02; x03; x00; x00; x00; x0a].

Definition rep_ids (d : nat) : list byte :=
  if Nat.eqb d 2 then report_id10 else Bench.report_off.

Definition env_ids : usb_env :=
  {| busses := [ {| devices := [Bench.relay 2; Bench.stranger 1;
                                Bench.relay 3] |} ];
     usb_error := fun _ _ _ => false;
     feature_report := fun _ d => rep_ids d |}.

(** Two busses with one relay each; the relay at address 3, on the
    second bus, cannot be opened. *)
Definition env_two_busses : usb_env :=
  {| busses := [ {| devices := [Bench.relay 2] |};
                 {| devices := [Bench.stranger 1; Bench.relay 3;
                                Bench.relay 4] |} ];
     usb_error := fun _ d op =>
       match op with
       | OpOpen => Nat.eqb d 3
       | _ => false
       end;
     feature_report := fun _ _ => Bench.report_off |}.

(** [int] on the few strings the bench uses. *)
Definition int_small (s : string) : option Z :=
  if String.eqb s "0" then Some 0
  else if String.eqb s "20" then Some 20
  else if String.eqb s "-5" then Some (-5)
  else None.

End Bench2.
(** * Lemmas *)

Lemma count_app P t u : count P (t ++ u) = (count P t + count P u)%nat.
Proof.
  unfold count. rewrite filter_app, length_app. reflexivity.
Qed.

Lemma count_none P t :
  Forall (fun e => P e = false) t -> count P t = 0%nat.
Proof.
  unfold count. induction 1 as [|e t He _ IH]; simpl.
  - reflexivity.
  - rewrite He. exact IH.
Qed.

(** ** Rules for [quiet] *)

Lemma extend_nil w : extend w [] = w.
Proof. destruct w. unfold extend. cbn. rewrite app_nil_r. reflexivity. Qed.

Lemma extend_extend w a b : extend (extend w a) b = extend w (a ++ b).
Proof. unfold extend. cbn. rewrite app_assoc. reflexivity. Qed.

Section Quiet.
Variable P : event -> bool.

Lemma quiet_ret {A} (a : A) : quiet P (ret a).
Proof. intros w. exists []. cbn. rewrite extend_nil. auto. Qed.

Lemma quiet_raise {A} e : quiet P (@raise A e).
Proof. intros w. exists []. cbn. rewrite extend_nil. auto. Qed.

Lemma quiet_lift {A} (r : result A) : quiet P (lift r).
Proof. intros w. exists []. cbn. rewrite extend_nil. auto. Qed.

Lemma quiet_emit e : P e = false -> quiet P (emit e).
Proof. intros He w. exists [e]. cbn. auto. Qed.

Lemma quiet_bind {A B} (m : M A) (k : A -> M B) :
  quiet P m -> (forall a, quiet P (k a)) -> quiet P (bind m k).
Proof.
  intros Hm Hk w. unfold bind.
  destruct (Hm w) as (d1 & E1 & F1).
  destruct (m w) as [[a|e] w1]; cbn in E1.
  - destruct (Hk a w1) as (d2 & E2 & F2).
    exists (d1 ++ d2). split.
    + rewrite E2, E1, extend_extend. reflexivity.
    + apply Forall_app. auto.
  - exists d1. auto.
Qed.

Lemma quiet_attempt {A} (m : M A) : quiet P m -> quiet P (attempt m).
Proof.
  intros Hm w. unfold attempt.
  destruct (Hm w) as (d & E1 & F1).
  destruct (m w) as [r w1]. exists d. auto.
Qed.

Lemma quiet_isEnabledFor level : quiet P (log.isEnabledFor level).
Proof. intros w. exists []. cbn. rewrite extend_nil. auto. Qed.

Lemma quiet_usb_call E d op :
  P (EvUsb d op) = false -> quiet P (mp709.usb_call E d op).
Proof.
  intros He w. exists [EvUsb d op]. unfold mp709.usb_call.
  destruct (usb_error E (trace w) d op); cbn; auto.
Qed.

Lemma quiet_controlMsg E h rt rq buffer v i t :
  P (EvUsb h (OpControlMsg rt rq buffer v i t)) = false ->
  quiet P (mp709.controlMsg E h rt rq buffer v i t).
Proof.
  intros He w. exists [EvUsb h (OpControlMsg rt rq buffer v i t)].
  unfold mp709.controlMsg, mp709.usb_call.
  destruct (usb_error E (trace w) h _); cbn; auto.
  destruct buffer; cbn; auto.
Qed.

(** What a quiet computation leaves unchanged. *)
Lemma quiet_count {A} (m : M A) w :
  quiet P m -> count P (trace (snd (m w))) = count P (trace w).
Proof.
  intros Hm. destruct (Hm w) as (d & E1 & F1).
  rewrite E1. unfold extend. cbn [trace].
  rewrite count_app, (count_none _ _ F1). lia.
Qed.

End Quiet.

(** Splits a goal [quiet P m] along the structure of [m]; what is left are
    the events [P] has to reject, settled by evaluation. *)
Ltac quietly :=
  repeat first
    [ apply quiet_ret
    | apply quiet_raise
    | apply quiet_lift
    | apply quiet_isEnabledFor
    | apply quiet_attempt
    | apply quiet_emit; reflexivity
    | apply quiet_usb_call; reflexivity
    | apply quiet_controlMsg; reflexivity
    | apply quiet_bind; [ | intros ]
    | assumption
    | progress cbv zeta
    | progress unfold mp709.the_handle, mp709.close, mp709.open,
        mp709.setPort, mp709.getPort, mp709.getInfo, mp709.__str__,
        log.info, log.error, log.log, log.handle,
        print, usage, version, sys_exit
    | match goal with
      | |- quiet _ (match ?x with _ => _ end) => destruct x
      end ].

Lemma getPort_run E self h timeout w bytes :
  mp709.handle self = Some h ->
  answers E self h m_getPort mp709.GET_PORT timeout w bytes ->
  mp709.getPort E self timeout w
  = (mp709.getPort_decode (Received bytes),
     extend w (exchange self h m_getPort mp709.GET_PORT timeout)).
Proof.
  intros Hh (H1 & H2 & H3).
  unfold mp709.getPort, mp709.the_handle, mp709.controlMsg, mp709.usb_call,
    bind, emit, ret, lift, extend, exchange.
  rewrite Hh. simpl.
  unfold report_write, report_read in *.
  rewrite H1. simpl. rewrite H2, H3.
  rewrite <- !app_assoc. reflexivity.
Qed.

Lemma getInfo_run E self h timeout w bytes :
  mp709.handle self = Some h ->
  answers E self h m_getInfo mp709.GET_INFO timeout w bytes ->
  mp709.getInfo E self timeout w
  = (mp709.getInfo_decode (Received bytes),
     extend w (exchange self h m_getInfo mp709.GET_INFO timeout)).
Proof.
  intros Hh (H1 & H2 & H3).
  unfold mp709.getInfo, mp709.the_handle, mp709.controlMsg, mp709.usb_call,
    bind, emit, ret, lift, extend, exchange.
  rewrite Hh. simpl.
  unfold report_write, report_read in *.
  rewrite H1. simpl. rewrite H2, H3.
  rewrite <- !app_assoc. reflexivity.
Qed.

(** ** Decoding a response *)

Lemma getitem_received bytes i :
  (i < List.length bytes)%nat ->
  getitem (Received bytes) i = Ok (byte_at bytes i).
Proof.
  intros Hi. unfold getitem, byte_at.
  destruct (nth_error bytes i) as [b|] eqn:Hn.
  - rewrite (nth_error_nth _ _ _ Hn). reflexivity.
  - apply nth_error_None in Hn. lia.
Qed.

Lemma getitem_short bytes i :
  (List.length bytes <= i)%nat ->
  getitem (Received bytes) i = Raise IndexError.
Proof.
  intros Hi. unfold getitem.
  apply nth_error_None in Hi. rewrite Hi. reflexivity.
Qed.

Lemma byte_at_range bytes i : 0 <= byte_at bytes i <= 255.
Proof.
  unfold byte_at. pose proof (Byte.to_N_bounded (nth i bytes x00)). lia.
Qed.

Lemma getPort_decode_long bytes :
  (3 <= List.length bytes)%nat ->
  mp709.getPort_decode (Received bytes)
  = Ok ((byte_at bytes 1 =? byte_at bytes 2) && (byte_at bytes 1 =? 0x00)).
Proof.
  intros Hl. unfold mp709.getPort_decode.
  rewrite !getitem_received by lia. simpl.
  destruct (byte_at bytes 1 =? byte_at bytes 2); reflexivity.
Qed.

Lemma getPort_decode_short bytes :
  (List.length bytes < 3)%nat ->
  mp709.getPort_decode (Received bytes) = Raise IndexError.
Proof.
  intros Hl. unfold mp709.getPort_decode.
  destruct (Nat.le_gt_cases (List.length bytes) 1) as [H1|H1].
  - rewrite (getitem_short bytes 1) by lia. reflexivity.
  - rewrite (getitem_received bytes 1) by lia.
    rewrite (getitem_short bytes 2) by lia. reflexivity.
Qed.

Lemma getInfo_decode_long bytes :
  (8 <= List.length bytes)%nat ->
  mp709.getInfo_decode (Received bytes)
  = Ok {| mp709.info_family := byte_at bytes 1;
          mp709.info_version := byte_at bytes 2 + byte_at bytes 3 * 256;
          mp709.info_id := byte_at bytes 7 + byte_at bytes 6 * 256
                           + byte_at bytes 5 * 65536
                           + byte_at bytes 4 * 16777216 |}.
Proof.
  intros Hl. unfold mp709.getInfo_decode.
  rewrite !getitem_received by lia. reflexivity.
Qed.

Lemma getInfo_decode_short bytes :
  (List.length bytes < 8)%nat ->
  mp709.getInfo_decode (Received bytes) = Raise IndexError.
Proof.
  intros Hl. unfold mp709.getInfo_decode.
  destruct (Nat.le_gt_cases (List.length bytes) 1) as [H1|H1];
    [rewrite (getitem_short bytes 1) by lia; reflexivity
    |rewrite (getitem_received bytes 1) by lia; cbn [bindR]].
  destruct (Nat.le_gt_cases (List.length bytes) 2) as [H2|H2];
    [rewrite (getitem_short bytes 2) by lia; reflexivity
    |rewrite (getitem_received bytes 2) by lia; cbn [bindR]].
  destruct (Nat.le_gt_cases (List.length bytes) 3) as [H3|H3];
    [rewrite (getitem_short bytes 3) by lia; reflexivity
    |rewrite (getitem_received bytes 3) by lia; cbn [bindR]].
  rewrite (getitem_short bytes 7) by lia. reflexivity.
Qed.

(** The identifier [getInfo] decodes is a 32-bit unsigned number. *)
Lemma getInfo_decode_id_range buffer i :
  mp709.getInfo_decode buffer = Ok i -> 0 <= mp709.info_id i < 2 ^ 32.
Proof.
  destruct buffer as [n|bytes]; [discriminate|].
  destruct (Nat.le_gt_cases 8 (List.length bytes)) as [Hl|Hl].
  - rewrite getInfo_decode_long by exact Hl.
    intros [= <-]. simpl.
    pose proof (byte_at_range bytes 4). pose proof (byte_at_range bytes 5).
    pose proof (byte_at_range bytes 6). pose proof (byte_at_range bytes 7).
    lia.
  - rewrite getInfo_decode_short by exact Hl. discriminate.
Qed.

(** ** Bytes of a synthetic response *)

Lemma byte_of_Z_value z :
  0 <= z <= 255 -> Z.of_N (Byte.to_N (byte_of_Z z)) = z.
Proof.
  intros Hz. unfold byte_of_Z.
  destruct (Byte.of_N (Z.to_N z)) as [b|] eqn:Hb.
  - apply Byte.to_of_N in Hb. rewrite Hb. lia.
  - apply Byte.of_N_None_iff in Hb. lia.
Qed.

Lemma getInfo_decode_info_response b0 f v i :
  0 <= f <= 255 -> 0 <= v <= 65535 -> 0 <= i <= 2 ^ 32 - 1 ->
  mp709.getInfo_decode (Received (info_response b0 f v i))
  = Ok {| mp709.info_family := f; mp709.info_version := v;
          mp709.info_id := i |}.
Proof.
  intros Hf Hv Hi.
  rewrite getInfo_decode_long by (simpl; lia).
  unfold byte_at, info_response. cbn [nth].
  rewrite !byte_of_Z_value by (try assumption; Z.div_mod_to_equations; lia).
  f_equal. f_equal; Z.div_mod_to_equations; lia.
Qed.

(** ** Construction of a client *)

Lemma open_fresh_ok E device i w self w1 :
  mp709.open E (fresh device i) w = (Ok self, w1) ->
  exists c,
    first (configurations device) = Ok c
    /\ self = {| mp709.self_id := devnum device;
                 mp709.handle := Some (devnum device);
                 mp709.dev := Some device; mp709.intf := Some i;
                 mp709.intfNum := interfaceNumber i |}
    /\ w1 = extend w (open_events device c i).
Proof.
  unfold mp709.open, fresh, bind, attempt, emit, ret, raise, lift,
    mp709.usb_call, extend, open_events.
  cbn [mp709.handle mp709.dev mp709.intf mp709.self_id mp709.intfNum
       trace log_level fst snd].
  destruct (usb_error E _ _ OpOpen); [discriminate|].
  destruct (usb_error E _ _ (OpDetachKernelDriver _));
    (destruct (first (configurations device)) as [c|e]; [|discriminate]);
    cbn [trace log_level];
    (destruct (usb_error E _ _ (OpSetConfiguration _)); [discriminate|]);
    (destruct (usb_error E _ _ (OpClaimInterface _)); [discriminate|]);
    (destruct (usb_error E _ _ (OpSetAltInterface _)); [discriminate|]);
    intros [= <- <-]; exists c; repeat split;
    rewrite <- !app_assoc; reflexivity.
Qed.

Lemma init_run E device k w conf alts i :
  idVendor device = 0x16C0 -> idProduct device = 0x05DF ->
  first (configurations device) = Ok conf ->
  first (interfaces conf) = Ok alts ->
  first alts = Ok i ->
  mp709.__init__ E device k w
  = (self <- mp709.open E (fresh device i) ;;
     if negb (k =? 0) then
       info <- mp709.getInfo E self 100 ;;
       if negb (mp709.info_id info =? k) then
         mp709.close E self ;;
         raise ValueError
       else ret self
     else ret self) w.
Proof.
  intros Hv Hp Hc Ha Hi. unfold mp709.__init__.
  rewrite Hv, Hp. cbn [Z.eqb Pos.eqb negb orb].
  unfold bind at 1. unfold lift at 1. rewrite Hc.
  unfold bind at 1. unfold lift at 1. rewrite Ha.
  unfold bind at 1. unfold lift at 1. rewrite Hi.
  reflexivity.
Qed.

Lemma getInfo_ok E self timeout w i w1 :
  mp709.getInfo E self timeout w = (Ok i, w1) ->
  exists buffer, mp709.getInfo_decode buffer = Ok i.
Proof.
  unfold mp709.getInfo, mp709.the_handle, mp709.controlMsg, mp709.usb_call,
    bind, emit, ret, raise, lift.
  destruct (mp709.handle self) as [h|]; [|discriminate].
  cbn [trace log_level].
  destruct (usb_error E _ _ _); [discriminate|].
  cbn [trace log_level].
  destruct (usb_error E _ _ _); [discriminate|].
  intros [= H _]. eauto.
Qed.

Lemma getInfo_id_range E self timeout w i w1 :
  mp709.getInfo E self timeout w = (Ok i, w1) ->
  0 <= mp709.info_id i <= 2 ^ 32 - 1.
Proof.
  intros H. apply getInfo_ok in H. destruct H as [buffer H].
  apply getInfo_decode_id_range in H. lia.
Qed.

Lemma then_raise_not_ok {A B} (m : M A) e w (b : B) w' :
  (m ;; raise e) w <> (Ok b, w').
Proof.
  unfold bind, raise. destruct (m w) as [[a|e'] w1]; discriminate.
Qed.

(** The session is released, then the rejection is raised. *)
Lemma close_then_raise E self h w :
  mp709.handle self = Some h ->
  exists e,
    (mp709.close E self ;; raise ValueError) w
    = (@Raise mp709.t e, extend w (close_events self h))
    /\ (usb_error E (trace w ++ [EvCall (mp709.self_id self) m_close]) h
                  OpReleaseInterface = false -> e = ValueError).
Proof.
  intros Hh.
  unfold mp709.close, mp709.usb_call, bind, emit, ret, raise, extend,
    close_events.
  rewrite Hh. cbn [trace log_level].
  destruct (usb_error E _ h OpReleaseInterface).
  - exists USBError. rewrite <- app_assoc. split; [reflexivity|discriminate].
  - exists ValueError. rewrite <- app_assoc. split; reflexivity.
Qed.

(** A computation that begins with a call records the call first. *)
Lemma starts_with_call {A} (e : event) (k : M A) w :
  quiet no_event k ->
  exists d, trace (snd ((emit e ;; k) w)) = trace w ++ e :: d.
Proof.
  intros Hk. unfold bind, emit.
  destruct (Hk {| trace := trace w ++ [e]; log_level := log_level w |})
    as (d & Hd & _).
  exists d. rewrite Hd. cbn [trace extend]. rewrite <- app_assoc. reflexivity.
Qed.

Lemma bind_assoc {A B C} (m : M A) (k1 : A -> M B) (k2 : B -> M C) w :
  bind (bind m k1) k2 w = bind m (fun a => bind (k1 a) k2) w.
Proof.
  unfold bind. destruct (m w) as [[a|e] w1]; reflexivity.
Qed.

(** Once the session is open, what is left of [__init__] is the filter. *)
Lemma init_after_open E device k w conf alts i self w1 :
  idVendor device = 0x16C0 -> idProduct device = 0x05DF ->
  first (configurations device) = Ok conf ->
  first (interfaces conf) = Ok alts ->
  first alts = Ok i ->
  mp709.open E (fresh device i) w = (Ok self, w1) ->
  mp709.__init__ E device k w
  = (if negb (k =? 0) then
       info <- mp709.getInfo E self 100 ;;
       if negb (mp709.info_id info =? k) then
         mp709.close E self ;;
         raise ValueError
       else ret self
     else ret self) w1.
Proof.
  intros Hv Hp Hc Ha Hi Ho.
  rewrite (init_run E device k w conf alts i) by assumption.
  unfold bind at 1. rewrite Ho. reflexivity.
Qed.

Lemma filter_consults_getInfo E self k w :
  k <> 0 ->
  exists d,
    trace (snd ((if negb (k =? 0) then
                   info <- mp709.getInfo E self 100 ;;
                   if negb (mp709.info_id info =? k) then
                     mp709.close E self ;;
                     raise ValueError
                   else ret self
                 else ret self) w))
    = trace w ++ EvCall (mp709.self_id self) m_getInfo :: d.
Proof.
  intros Hk. apply Z.eqb_neq in Hk. rewrite Hk. cbn [negb].
  unfold mp709.getInfo. rewrite bind_assoc.
  apply starts_with_call. quietly.
Qed.

(** ** Enumeration *)

(** When no construction succeeds the loops hand back the list they were
    given. *)
Lemma enumerate_devices_none E self devs :
  (forall dev w c w',
     mp709.__init__ E dev (relaysControl.id self) w <> (Ok c, w')) ->
  forall relays w rs w',
    relaysControl.enumerate_devices E self devs relays w = (Ok rs, w') ->
    rs = relays.
Proof.
  intros Hrej. induction devs as [|dev devs IH]; intros relays w rs w'.
  - cbn. intros [= <- _]. reflexivity.
  - cbn [relaysControl.enumerate_devices]. unfold bind at 1, attempt.
    destruct (mp709.__init__ E dev (relaysControl.id self) w)
      as [[c|e] w1] eqn:Hi.
    + exfalso. exact (Hrej _ _ _ _ Hi).
    + destruct e; try discriminate. apply IH.
Qed.

Lemma enumerate_busses_none E self bs :
  (forall dev w c w',
     mp709.__init__ E dev (relaysControl.id self) w <> (Ok c, w')) ->
  forall relays w rs w',
    relaysControl.enumerate_busses E self bs relays w = (Ok rs, w') ->
    rs = relays.
Proof.
  intros Hrej. induction bs as [|b bs IH]; intros relays w rs w'.
  - cbn. intros [= <- _]. reflexivity.
  - cbn [relaysControl.enumerate_busses]. unfold bind at 1.
    destruct (relaysControl.enumerate_devices E self (devices b) relays w)
      as [[rs1|e] w1] eqn:Hd; [|discriminate].
    apply (enumerate_devices_none E self _ Hrej) in Hd. subst rs1.
    apply IH.
Qed.

(** A negative filter is never met. *)
Lemma negative_id_never_ok E device k w c w' :
  k < 0 -> mp709.__init__ E device k w <> (Ok c, w').
Proof.
  intros Hk. unfold mp709.__init__.
  destruct (negb (idVendor device =? 0x16C0) || negb (idProduct device =? 0x05DF));
    [discriminate|].
  unfold bind at 1, lift at 1.
  destruct (first (configurations device)) as [conf|e]; [|discriminate].
  unfold bind at 1, lift at 1.
  destruct (first (interfaces conf)) as [alts|e]; [|discriminate].
  unfold bind at 1, lift at 1.
  destruct (first alts) as [i|e]; [|discriminate].
  unfold bind at 1.
  destruct (mp709.open E _ w) as [[self|e] w1]; [|discriminate].
  assert (Hk0 : (k =? 0) = false) by (apply Z.eqb_neq; lia).
  rewrite Hk0. cbn [negb].
  unfold bind at 1.
  destruct (mp709.getInfo E self 100 w1) as [[info|e] w2] eqn:Hg;
    [|discriminate].
  apply getInfo_id_range in Hg.
  assert (Hne : (mp709.info_id info =? k) = false) by (apply Z.eqb_neq; lia).
  rewrite Hne. cbn [negb].
  apply then_raise_not_ok.
Qed.

(** ** Counting calls *)

Lemma is_call_same self m : is_call self m (EvCall self m) = true.
Proof.
  unfold is_call. rewrite Nat.eqb_refl, andb_true_r.
  destruct m as [| |[]| | |]; reflexivity.
Qed.

(** The toggle branch, once [getPort] has answered. *)
Lemma toggle_run E control r w p w1 :
  relaysControl.state control = relayState.toggle ->
  mp709.getPort E r 100 w = (Ok p, w1) ->
  relaysControl.controlRelays E control [r] w
  = (emit (EvCall (mp709.self_id r) (m_setPort (negb p))) ;;
     (h <- mp709.the_handle r ;;
      mp709.controlMsg E h HID_REQ_TO_DEV SET_REPORT
        (Data (if negb p then mp709.SET_PORT_ON else mp709.SET_PORT_OFF))
        REPORT_TYPE_FEATURE (mp709.intfNum r) 100) ;;
     ret tt ;;
     log.info E (log.Obj r) ;;
     ret tt) w1.
Proof.
  intros Hs Hg.
  cbn [relaysControl.controlRelays]. unfold relaysControl.controlRelay.
  rewrite Hs. cbn [Z.eqb Pos.eqb relayState.toggle relayState.on relayState.off orb].
  rewrite !bind_assoc. unfold bind at 1. rewrite Hg.
  unfold mp709.setPort. rewrite !bind_assoc.
  reflexivity.
Qed.

(** ** The status record *)

Lemma emit_then (P : event -> bool) {A} (e : event) (k : M A) w :
  quiet P k ->
  exists o d,
    (emit e ;; k) w = (o, extend w (e :: d))
    /\ Forall (fun e => P e = false) d.
Proof.
  intros Hk. unfold bind, emit.
  destruct (Hk {| trace := trace w ++ [e]; log_level := log_level w |})
    as (d & Hd & Fd).
  destruct (k _) as [o w2]. cbn [snd] in Hd. subst w2.
  exists o, d. split; [|exact Fd].
  unfold extend. cbn [trace log_level]. rewrite <- app_assoc. reflexivity.
Qed.

(** [__str__] records its call; what follows sets no relay. *)
Lemma str_run E r w :
  exists o d,
    mp709.__str__ E r w = (o, extend w (EvCall (mp709.self_id r) m_str :: d))
    /\ Forall (fun e => is_str_or_change e = false) d.
Proof.
  unfold mp709.__str__. apply emit_then. quietly.
Qed.

Lemma Forall_str_or_change d :
  Forall (fun e => is_str_or_change e = false) d ->
  Forall (fun e => is_str_call e = false) d
  /\ Forall (fun e => is_setPort_call e = false) d
  /\ Forall (fun e => is_mutating e = false) d.
Proof.
  intros H. repeat split; (eapply Forall_impl; [|exact H]);
    intros e He; unfold is_str_or_change in He;
    apply orb_false_iff in He; destruct He as [He He3];
    apply orb_false_iff in He; destruct He as [He1 He2]; assumption.
Qed.

(** [log.info(r)]: nothing under the threshold; else one call of
    [__str__], first, and one record, last. *)
Lemma log_info_obj E r w :
  exists d,
    log.info E (log.Obj r) w = (Ok tt, extend w d)
    /\ Forall (fun e => is_setPort_call e = false) d
    /\ Forall (fun e => is_mutating e = false) d
    /\ count is_str_call d
       = (if log_level w <=? logging.INFO then 1%nat else 0%nat)
    /\ (log_level w <= logging.INFO ->
        exists d' msg,
          d = EvCall (mp709.self_id r) m_str :: d' ++ [EvLog logging.INFO msg]).
Proof.
  unfold log.info, log.log, bind at 1, log.isEnabledFor.
  destruct (log_level w <=? logging.INFO) eqn:Hen.
  - unfold log.handle, bind, attempt.
    destruct (str_run E r w) as (o & d' & Hrun & Fd). rewrite Hrun.
    destruct (Forall_str_or_change _ Fd) as (F1 & F2 & F3).
    set (msg := match o with Ok s => LogText s | Raise _ => LogFormatError end).
    exists (EvCall (mp709.self_id r) m_str :: d' ++ [EvLog logging.INFO msg]).
    split; [|split; [|split; [|split]]].
    + subst msg. destruct o; unfold emit, extend; cbn [trace log_level];
        rewrite <- app_assoc; reflexivity.
    + constructor; [reflexivity|]. apply Forall_app. split; [exact F2|].
      constructor; [reflexivity|constructor].
    + constructor; [reflexivity|]. apply Forall_app. split; [exact F3|].
      constructor; [reflexivity|constructor].
    + change (EvCall (mp709.self_id r) m_str :: d' ++ [EvLog logging.INFO msg])
        with ([EvCall (mp709.self_id r) m_str] ++ d' ++ [EvLog logging.INFO msg]).
      rewrite !count_app, (count_none _ _ F1). reflexivity.
    + intros _. eauto.
  - exists []. rewrite extend_nil.
    repeat split; auto.
    intros Hle. apply Z.leb_gt in Hen. lia.
Qed.

(** ** Discovery calls neither [setPort] nor [getPort] *)

Lemma quiet_init E device k : quiet is_port_call (mp709.__init__ E device k).
Proof. unfold mp709.__init__. quietly. Qed.

Lemma quiet_enumerate_devices E self devs :
  forall relays,
    quiet is_port_call (relaysControl.enumerate_devices E self devs relays).
Proof.
  induction devs as [|dev devs IH]; intros relays;
    cbn [relaysControl.enumerate_devices].
  - apply quiet_ret.
  - apply quiet_bind; [apply quiet_attempt, quiet_init|].
    intros [relay|e]; [apply IH|].
    destruct e; solve [apply IH | apply quiet_raise].
Qed.

Lemma quiet_enumerate_busses E self bs :
  forall relays,
    quiet is_port_call (relaysControl.enumerate_busses E self bs relays).
Proof.
  induction bs as [|b bs IH]; intros relays;
    cbn [relaysControl.enumerate_busses].
  - apply quiet_ret.
  - apply quiet_bind; [apply quiet_enumerate_devices|].
    intros rs. apply IH.
Qed.

Lemma quiet_enumerateRelays E self :
  quiet is_port_call (relaysControl.enumerateRelays E self).
Proof.
  unfold relaysControl.enumerateRelays.
  apply quiet_bind; [apply quiet_emit; reflexivity|intros _].
  apply quiet_bind; [apply quiet_enumerate_busses|intros rs].
  quietly.
Qed.

(** A bus of devices of another make yields no client. *)
Lemma enumerate_devices_strangers E self devs :
  Forall (fun d => (idVendor d, idProduct d) <> (0x16C0, 0x05DF)) devs ->
  forall relays w,
    relaysControl.enumerate_devices E self devs relays w = (Ok relays, w).
Proof.
  induction 1 as [|dev devs Hd _ IH]; intros relays w.
  - reflexivity.
  - cbn [relaysControl.enumerate_devices]. unfold bind at 1, attempt.
    unfold mp709.__init__.
    destruct (idVendor dev =? 0x16C0) eqn:Hv;
      destruct (idProduct dev =? 0x05DF) eqn:Hp;
      cbn [negb orb]; unfold raise at 1; try apply IH.
    apply Z.eqb_eq in Hv, Hp. rewrite Hv, Hp in Hd. contradiction.
Qed.

Lemma enumerate_busses_strangers E self bs :
  Forall (fun b =>
            Forall (fun d => (idVendor d, idProduct d) <> (0x16C0, 0x05DF))
                   (devices b)) bs ->
  forall relays w,
    relaysControl.enumerate_busses E self bs relays w = (Ok relays, w).
Proof.
  induction 1 as [|b bs Hb _ IH]; intros relays w.
  - reflexivity.
  - cbn [relaysControl.enumerate_busses]. unfold bind at 1.
    rewrite (enumerate_devices_strangers E self _ Hb). apply IH.
Qed.

Lemma log_info_str_ok E s w :
  fst (log.info E (log.Str s) w) = Ok tt.
Proof.
  unfold log.info, log.log, log.handle, log.isEnabledFor, bind, emit, ret.
  destruct (log_level w <=? logging.INFO); reflexivity.
Qed.

(** The enumeration that ends without a client raises. *)
Lemma enumerateRelays_empty E control w w1 :
  relaysControl.enumerate_busses E control (busses E) [] (extend w [EvBusses])
  = (Ok [], w1) ->
  relaysControl.enumerateRelays E control w
  = (Raise RuntimeWarning, snd (log.info E (log.Str "No relay found") w1)).
Proof.
  intros Hb. unfold extend in Hb.
  unfold relaysControl.enumerateRelays.
  unfold bind at 1, emit at 1. unfold bind at 1. rewrite Hb.
  cbn [List.length Z.of_nat Z.eqb]. unfold bind, raise.
  pose proof (log_info_str_ok E "No relay found" w1) as Hl.
  destruct (log.info E (log.Str "No relay found") w1) as [[[]|e] w2];
    [reflexivity|discriminate].
Qed.

(** ** The command line *)

Lemma lookup_raises key d e :
  relaysControl.lookup key d = Raise e -> e = KeyError key.
Proof.
  induction d as [|[k v] d IH]; cbn.
  - intros [= <-]. reflexivity.
  - destruct (String.eqb k key); [discriminate|exact IH].
Qed.

Lemma lookup_unsupported a :
  ~ In a ["on"; "off"; "noChange"; "toggle"]%string ->
  relaysControl.lookup a relaysControl.states = Raise (KeyError a).
Proof.
  intros Hn. unfold relaysControl.states. cbn [relaysControl.lookup].
  destruct (String.eqb "on" a) eqn:H1;
    [apply String.eqb_eq in H1; subst a; exfalso; apply Hn; cbn; tauto|].
  destruct (String.eqb "off" a) eqn:H2;
    [apply String.eqb_eq in H2; subst a; exfalso; apply Hn; cbn; tauto|].
  destruct (String.eqb "noChange" a) eqn:H3;
    [apply String.eqb_eq in H3; subst a; exfalso; apply Hn; cbn; tauto|].
  destruct (String.eqb "toggle" a) eqn:H4;
    [apply String.eqb_eq in H4; subst a; exfalso; apply Hn; cbn; tauto|].
  reflexivity.
Qed.

Lemma quiet_setState E control a :
  quiet is_device_io (relaysControl.setState E control a).
Proof. unfold relaysControl.setState. quietly. Qed.

Lemma quiet_setId int control a :
  quiet is_device_io (relaysControl.setId int control a).
Proof. unfold relaysControl.setId. quietly. Qed.

Lemma quiet_main_options E int opts :
  forall control verbose,
    quiet is_device_io (main_options E int opts control verbose).
Proof.
  induction opts as [|[o a] opts IH]; intros control verbose;
    cbn [main_options].
  - apply quiet_ret.
  - destruct (one_of o "-h" "--help"); [quietly|].
    destruct (one_of o "-V" "--version"); [quietly|].
    destruct (one_of o "-s" "--state").
    { apply quiet_bind; [apply quiet_setState|intros; apply IH]. }
    destruct (one_of o "-i" "--id").
    { apply quiet_bind; [apply quiet_setId|intros; apply IH]. }
    destruct (one_of o "-v" "--verbose"); apply IH.
Qed.

Lemma setState_unsupported E control a w :
  ~ In a ["on"; "off"; "noChange"; "toggle"]%string ->
  fst (relaysControl.setState E control a w) = Raise (KeyError a).
Proof.
  intros Hn. unfold relaysControl.setState.
  rewrite (lookup_unsupported a Hn).
  unfold log.error, log.log, log.handle, log.isEnabledFor, bind, emit, ret,
    raise.
  destruct (log_level w <=? logging.ERROR); reflexivity.
Qed.

Lemma state_option o :
  one_of o "-s" "--state" = true ->
  one_of o "-h" "--help" = false /\ one_of o "-V" "--version" = false.
Proof.
  unfold one_of. intros H. apply orb_true_iff in H.
  destruct H as [H|H]; apply String.eqb_eq in H; subst o; split; reflexivity.
Qed.

(** An unsupported state stops the loop over the options. *)
Lemma main_options_bad_state E int pre o a post :
  one_of o "-s" "--state" = true ->
  ~ In a ["on"; "off"; "noChange"; "toggle"]%string ->
  forall control verbose w,
  exists e,
    fst (main_options E int (pre ++ (o, a) :: post) control verbose w) = Raise e
    /\ (Forall (fun oa => exits_early oa = false) pre ->
        forall c, e <> SystemExit c).
Proof.
  intros Ho Hn. destruct (state_option o Ho) as [Hh HV].
  induction pre as [|[o' a'] pre IH]; intros control verbose w.
  - cbn [app main_options]. rewrite Hh, HV, Ho.
    exists (KeyError a). split; [|intros; discriminate].
    unfold bind.
    pose proof (setState_unsupported E control a w Hn) as Hs.
    destruct (relaysControl.setState E control a w) as [[c|e] w1];
      cbn [fst] in Hs; [discriminate|].
    cbn [fst]. injection Hs as ->. reflexivity.
  - cbn [app main_options].
    destruct (one_of o' "-h" "--help") eqn:H1.
    { exists (SystemExit 2). split; [reflexivity|].
      intros Hall. inversion Hall as [|? ? Hx _]; subst.
      unfold exits_early in Hx. cbn [fst] in Hx. rewrite H1 in Hx.
      discriminate. }
    destruct (one_of o' "-V" "--version") eqn:H2.
    { exists (SystemExit 0). split; [reflexivity|].
      intros Hall. inversion Hall as [|? ? Hx _]; subst.
      unfold exits_early in Hx. cbn [fst] in Hx. rewrite H1, H2 in Hx.
      discriminate. }
    assert (Hkeep : forall e : exn,
               (Forall (fun oa => exits_early oa = false) pre ->
                forall c, e <> SystemExit c) ->
               (Forall (fun oa => exits_early oa = false) ((o', a') :: pre) ->
                forall c, e <> SystemExit c)).
    { intros e He Hall. inversion Hall as [|? ? _ Hrest]; subst.
      apply He. exact Hrest. }
    destruct (one_of o' "-s" "--state").
    { unfold bind.
      destruct (relaysControl.setState E control a' w) as [[c|e] w1] eqn:Hs.
      - destruct (IH c verbose w1) as (e & He1 & He2).
        exists e. split; [exact He1|apply Hkeep, He2].
      - exists e. split; [reflexivity|].
        intros _ c ->. revert Hs. unfold relaysControl.setState.
        destruct (relaysControl.lookup a' relaysControl.states) as [v|e'] eqn:Hl;
          [discriminate|].
        apply lookup_raises in Hl. subst e'.
        unfold log.error, log.log, log.handle, log.isEnabledFor, bind, emit,
          ret, raise.
        destruct (log_level w <=? logging.ERROR); discriminate. }
    destruct (one_of o' "-i" "--id").
    { unfold bind, relaysControl.setId.
      destruct (int a') as [n|].
      - cbn. destruct (IH {| relaysControl.state := relaysControl.state control;
                             relaysControl.id := n |} verbose w)
          as (e & He1 & He2).
        exists e. split; [exact He1|apply Hkeep, He2].
      - exists ValueError. split; [reflexivity|intros; discriminate]. }
    destruct (one_of o' "-v" "--verbose").
    + destruct (IH control (Z.max 0 (verbose - 10)) w) as (e & He1 & He2).
      exists e. split; [exact He1|apply Hkeep, He2].
    + destruct (IH control verbose w) as (e & He1 & He2).
      exists e. split; [exact He1|apply Hkeep, He2].
Qed.

(** When every device on every bus is of another make, the enumeration
    ends without a client and without having touched a device. *)
Lemma strangers_only_no_relay E control w :
  Forall (fun b =>
            Forall (fun d => (idVendor d, idProduct d) <> (0x16C0, 0x05DF))
                   (devices b)) (busses E) ->
  relaysControl.enumerateRelays E control w
  = (Raise RuntimeWarning,
     snd (log.info E (log.Str "No relay found") (extend w [EvBusses]))).
Proof.
  intros Hs. apply enumerateRelays_empty.
  apply enumerate_busses_strangers. exact Hs.
Qed.

(** ** A pass, client by client *)

Lemma bind_eq {A B} (m : M A) (k : A -> M B) w :
  bind m k w
  = match m w with
    | (Ok a, w') => k a w'
    | (Raise e, w') => (Raise e, w')
    end.
Proof. reflexivity. Qed.

(** The pass over a list that continues another. *)
Lemma pass_app E control relays1 relays2 w :
  relaysControl.controlRelays E control (relays1 ++ relays2) w
  = (relaysControl.controlRelays E control relays1 ;;
     relaysControl.controlRelays E control relays2) w.
Proof.
  revert w. induction relays1 as [|r relays1 IH]; intros w.
  - reflexivity.
  - cbn [app relaysControl.controlRelays].
    rewrite bind_assoc. rewrite !bind_eq.
    destruct (relaysControl.controlRelay E control r w) as [[[]|e] w1];
      [apply IH|reflexivity].
Qed.

(** The pass that has reached a client does its step and goes on with
    the clients behind it, or ends with the exception of the step. *)
Lemma pass_at E control pre r post w0 w :
  relaysControl.controlRelays E control pre w0 = (Ok tt, w) ->
  relaysControl.controlRelays E control (pre ++ r :: post) w0
  = match relaysControl.controlRelay E control r w with
    | (Ok _, w2) => relaysControl.controlRelays E control post w2
    | (Raise e, w2) => (Raise e, w2)
    end.
Proof.
  intros Hpre. rewrite pass_app, bind_eq, Hpre.
  cbn [relaysControl.controlRelays]. rewrite bind_eq. reflexivity.
Qed.

(** The step of Toggle on a client whose [getPort] has answered. *)
Lemma toggle_step E control r w p w1 :
  relaysControl.state control = relayState.toggle ->
  mp709.getPort E r 100 w = (Ok p, w1) ->
  exists res d,
    relaysControl.controlRelay E control r w
    = (res, extend w1 (EvCall (mp709.self_id r) (m_setPort (negb p)) :: d))
    /\ Forall (fun e => is_setPort_call e = false) d.
Proof.
  intros Hs Hg. unfold relaysControl.controlRelay. rewrite Hs.
  cbn [Z.eqb Pos.eqb relayState.toggle relayState.on relayState.off orb].
  rewrite !bind_assoc. unfold bind at 1. rewrite Hg.
  unfold mp709.setPort. rewrite !bind_assoc.
  apply (emit_then is_setPort_call). quietly.
Qed.

(** ** The status of a pass, client by client *)

Lemma filter_none P (d : list event) :
  Forall (fun e => P e = false) d -> filter P d = [].
Proof.
  induction 1 as [|e d He _ IH]; cbn; [reflexivity|].
  rewrite He. exact IH.
Qed.

Lemma log_info_obj_block E r w :
  log_level w <= logging.INFO ->
  exists blk,
    log.info E (log.Obj r) w = (Ok tt, extend w blk) /\ status_block r blk.
Proof.
  intros Hle. unfold log.info, log.log, bind at 1, log.isEnabledFor.
  replace (log_level w <=? logging.INFO) with true
    by (symmetry; apply Z.leb_le; exact Hle).
  unfold log.handle, bind, attempt.
  destruct (str_run E r w) as (o & d & Hrun & Fd). rewrite Hrun.
  set (msg := match o with Ok s => LogText s | Raise _ => LogFormatError end).
  exists (EvCall (mp709.self_id r) m_str :: d ++ [EvLog logging.INFO msg]).
  split.
  - subst msg. destruct o; unfold emit, extend; cbn [trace log_level];
      rewrite <- app_assoc; reflexivity.
  - exists d, msg. split; [reflexivity|exact Fd].
Qed.

Lemma status_block_facts r blk :
  status_block r blk ->
  filter is_str_call blk = [EvCall (mp709.self_id r) m_str]
  /\ Forall (fun e => is_setPort_call e = false) blk
  /\ Forall (fun e => is_mutating e = false) blk.
Proof.
  intros (d & msg & -> & Fd).
  destruct (Forall_str_or_change _ Fd) as (F1 & F2 & F3).
  split; [|split].
  - cbn [filter is_str_call]. rewrite filter_app.
    replace (filter is_str_call d) with (@nil event).
    + reflexivity.
    + symmetry. clear - F1. induction F1 as [|e d He _ IH]; cbn;
        [reflexivity|]. rewrite He. exact IH.
  - constructor; [reflexivity|]. apply Forall_app. split; [exact F2|].
    constructor; [reflexivity|constructor].
  - constructor; [reflexivity|]. apply Forall_app. split; [exact F3|].
    constructor; [reflexivity|constructor].
Qed.

Lemma status_blocks_facts relays blocks :
  Forall2 status_block relays blocks ->
  filter is_str_call (List.concat blocks)
  = map (fun r => EvCall (mp709.self_id r) m_str) relays
  /\ Forall (fun e => is_setPort_call e = false) (List.concat blocks)
  /\ Forall (fun e => is_mutating e = false) (List.concat blocks).
Proof.
  induction 1 as [|r blk relays blocks Hb _ (IH1 & IH2 & IH3)];
    cbn [List.concat map].
  - repeat split; constructor.
  - destruct (status_block_facts r blk Hb) as (B1 & B2 & B3).
    rewrite filter_app, B1, IH1.
    repeat split; try reflexivity; apply Forall_app; split; assumption.
Qed.

(** Under NoChange the step of a client is its status. *)
Lemma noChange_step E control r w :
  relaysControl.state control = relayState.noChange ->
  relaysControl.controlRelay E control r w = log.info E (log.Obj r) w.
Proof.
  intros Hs. unfold relaysControl.controlRelay. rewrite Hs. reflexivity.
Qed.

Lemma noChange_blocks E control :
  relaysControl.state control = relayState.noChange ->
  forall relays w,
    log_level w <= logging.INFO ->
    exists blocks,
      relaysControl.controlRelays E control relays w
      = (Ok tt, extend w (List.concat blocks))
      /\ Forall2 status_block relays blocks.
Proof.
  intros Hs. induction relays as [|r relays IH]; intros w Hle.
  - exists []. cbn. rewrite extend_nil. split; [reflexivity|constructor].
  - cbn [relaysControl.controlRelays]. rewrite bind_eq.
    rewrite (noChange_step E control r w Hs).
    destruct (log_info_obj_block E r w Hle) as (blk & Hrun & Hb).
    rewrite Hrun.
    destruct (IH (extend w blk) Hle) as (blocks & Hrest & Hbs).
    rewrite Hrest, extend_extend.
    exists (blk :: blocks). split; [reflexivity|constructor; assumption].
Qed.

Lemma noChange_silent E control :
  relaysControl.state control = relayState.noChange ->
  forall relays w,
    log_level w > logging.INFO ->
    relaysControl.controlRelays E control relays w = (Ok tt, w).
Proof.
  intros Hs. induction relays as [|r relays IH]; intros w Hgt.
  - reflexivity.
  - cbn [relaysControl.controlRelays]. rewrite bind_eq.
    rewrite (noChange_step E control r w Hs).
    unfold log.info, log.log, bind at 1, log.isEnabledFor.
    replace (log_level w <=? logging.INFO) with false
      by (symmetry; apply Z.leb_gt; lia).
    unfold ret at 1. apply IH. exact Hgt.
Qed.

(** * The claims *)

(** ** Report codec *)

(** C1.  For every 8-byte response, [getPort] returns true if and only if
    byte 1 equals byte 2 and byte 1 is 0x00; in every other case, among
    them byte 1 = 0x19 and byte 1 different from byte 2, it returns
    false. *)
Theorem getPort_true_iff E self h timeout w bytes :
  mp709.handle self = Some h ->
  answers E self h m_getPort mp709.GET_PORT timeout w bytes ->
  List.length bytes = 8%nat ->
  exists b,
    mp709.getPort E self timeout w
    = (Ok b, extend w (exchange self h m_getPort mp709.GET_PORT timeout))
    /\ (b = true <-> byte_at bytes 1 = byte_at bytes 2 /\ byte_at bytes 1 = 0x00)
    /\ (byte_at bytes 1 = 0x19 -> b = false)
    /\ (byte_at bytes 1 <> byte_at bytes 2 -> b = false).
Proof.
  intros Hh Ha Hl.
  rewrite (getPort_run _ _ _ _ _ _ Hh Ha).
  rewrite getPort_decode_long by lia.
  eexists. split; [reflexivity|].
  rewrite andb_true_iff, !Z.eqb_eq.
  repeat split; try tauto.
  - intros H19. rewrite H19. apply andb_false_r.
  - intros Hne. apply Z.eqb_neq in Hne. rewrite Hne. reflexivity.
Qed.

Lemma getPort_true_iff_witness :
  exists b,
    mp709.getPort (Bench.env [Bench.relay 2] Bench.report_on)
                  (Bench.client 2) 100 (Bench.start 30)
    = (Ok b, extend (Bench.start 30)
                    (exchange (Bench.client 2) 2%nat m_getPort mp709.GET_PORT 100))
    /\ (b = true <-> byte_at Bench.report_on 1 = byte_at Bench.report_on 2
                     /\ byte_at Bench.report_on 1 = 0x00)
    /\ (byte_at Bench.report_on 1 = 0x19 -> b = false)
    /\ (byte_at Bench.report_on 1 <> byte_at Bench.report_on 2 -> b = false).
Proof.
  apply getPort_true_iff.
  - reflexivity.
  - repeat split.
  - reflexivity.
Defined.

(** C2.  For every family in [0,255], version in [0,65535] and id in
    [0,2^32-1], a response that carries them in the documented layout
    (family in byte 1, version little-endian in bytes 2-3, id big-endian
    in bytes 4-7) is decoded by [getInfo] to exactly these three values. *)
Theorem getInfo_round_trip E self h timeout w b0 f v i :
  0 <= f <= 255 -> 0 <= v <= 65535 -> 0 <= i <= 2 ^ 32 - 1 ->
  mp709.handle self = Some h ->
  answers E self h m_getInfo mp709.GET_INFO timeout w (info_response b0 f v i) ->
  mp709.getInfo E self timeout w
  = (Ok {| mp709.info_family := f; mp709.info_version := v;
           mp709.info_id := i |},
     extend w (exchange self h m_getInfo mp709.GET_INFO timeout)).
Proof.
  intros Hf Hv Hi Hh Ha.
  rewrite (getInfo_run _ _ _ _ _ _ Hh Ha).
  rewrite getInfo_decode_info_response by assumption.
  reflexivity.
Qed.

Lemma getInfo_round_trip_witness :
  mp709.getInfo (Bench.env [Bench.relay 2] (info_response x1d 7 0x0302 3758))
                (Bench.client 2) 100 (Bench.start 30)
  = (Ok {| mp709.info_family := 7; mp709.info_version := 0x0302;
           mp709.info_id := 3758 |},
     extend (Bench.start 30)
            (exchange (Bench.client 2) 2%nat m_getInfo mp709.GET_INFO 100)).
Proof.
  apply (getInfo_round_trip (Bench.env [Bench.relay 2]
                               (info_response x1d 7 0x0302 3758))
           (Bench.client 2) 2%nat 100 (Bench.start 30) x1d 7 0x0302 3758).
  - lia.
  - lia.
  - lia.
  - reflexivity.
  - repeat split.
Defined.

(** C6, as the code has it.  Neither decoder checks the length of the
    response: [getInfo] fails exactly when the response has fewer than 8
    bytes and [getPort] exactly when it has fewer than 3; the failure is
    [IndexError] and no value is produced.  Any longer response is decoded
    from its bytes 1..7, respectively 1..2. *)
Theorem decode_fails_iff_short bytes :
  (mp709.getInfo_decode (Received bytes) = Raise IndexError
   <-> (List.length bytes < 8)%nat)
  /\ ((exists i, mp709.getInfo_decode (Received bytes) = Ok i)
      <-> (8 <= List.length bytes)%nat)
  /\ (mp709.getPort_decode (Received bytes) = Raise IndexError
      <-> (List.length bytes < 3)%nat)
  /\ ((exists b, mp709.getPort_decode (Received bytes) = Ok b)
      <-> (3 <= List.length bytes)%nat).
Proof.
  destruct (Nat.le_gt_cases 8 (List.length bytes)) as [H8|H8];
    destruct (Nat.le_gt_cases 3 (List.length bytes)) as [H3|H3];
    try lia.
  - rewrite getInfo_decode_long, getPort_decode_long by lia.
    repeat split; intros; try discriminate; try lia; eauto.
  - rewrite getInfo_decode_short, getPort_decode_long by lia.
    repeat split; intros; try discriminate; try lia; eauto.
    destruct H as [i Hi]. discriminate.
  - rewrite getInfo_decode_short, getPort_decode_short by lia.
    repeat split; intros; try discriminate; try lia; eauto.
    + destruct H as [i Hi]. discriminate.
    + destruct H as [i Hi]. discriminate.
Qed.

(** C6 as stated fails: a response of three bytes is not a response of
    eight bytes, and [getPort] decodes it to a relay state. *)
Lemma short_report_is_decoded :
  List.length [x7e; x00; x00] <> 8%nat
  /\ mp709.getPort_decode (Received [x7e; x00; x00]) = Ok true
  /\ mp709.getPort (Bench.env [Bench.relay 2] [x7e; x00; x00])
                   (Bench.client 2) 100 (Bench.start 30)
     = (Ok true,
        extend (Bench.start 30)
               (exchange (Bench.client 2) 2%nat m_getPort mp709.GET_PORT 100)).
Proof.
  repeat split. discriminate.
Qed.

(** ** Construction of a client *)

(** C5.  A device whose vendor and product id are not (0x16C0, 0x05DF) is
    rejected whatever the target filter is, and nothing has happened when
    it is rejected: no session was opened. *)
Theorem wrong_identity_rejected E device id w :
  (idVendor device, idProduct device) <> (0x16C0, 0x05DF) ->
  mp709.__init__ E device id w = (Raise ValueError, w).
Proof.
  intros Hne. unfold mp709.__init__.
  destruct (idVendor device =? 0x16C0) eqn:Hv;
    destruct (idProduct device =? 0x05DF) eqn:Hp; try reflexivity.
  apply Z.eqb_eq in Hv, Hp. rewrite Hv, Hp in Hne. contradiction.
Qed.

Lemma wrong_identity_rejected_witness :
  mp709.__init__ (Bench.env [Bench.stranger 1] Bench.report_off)
                 (Bench.stranger 1) 20 (Bench.start 30)
  = (Raise ValueError, Bench.start 30).
Proof.
  apply wrong_identity_rejected. discriminate.
Defined.

(** C4.  For a device of the right identity whose session opens: with
    filter 0 the device is retained and no device info is queried; with a
    filter [k <> 0], [getInfo] is performed, the device is retained when
    the decoded id is [k] and only then, and on a mismatch the session is
    released before the construction fails. *)
Theorem init_id_filter E device k w conf alts i self w1 :
  idVendor device = 0x16C0 -> idProduct device = 0x05DF ->
  first (configurations device) = Ok conf ->
  first (interfaces conf) = Ok alts ->
  first alts = Ok i ->
  mp709.open E (fresh device i) w = (Ok self, w1) ->
  (k = 0 ->
     mp709.__init__ E device k w = (Ok self, w1)
     /\ w1 = extend w (open_events device conf i)
     /\ count is_getInfo_call (trace w1) = count is_getInfo_call (trace w)
     /\ count is_transfer (trace w1) = count is_transfer (trace w))
  /\ (k <> 0 ->
      (exists d, trace (snd (mp709.__init__ E device k w))
                 = trace w1 ++ EvCall (devnum device) m_getInfo :: d)
      /\ (forall info w2,
            mp709.getInfo E self 100 w1 = (Ok info, w2) ->
            mp709.info_id info = k ->
            mp709.__init__ E device k w = (Ok self, w2))
      /\ (forall c w',
            mp709.__init__ E device k w = (Ok c, w') ->
            c = self
            /\ exists info,
                 mp709.getInfo E self 100 w1 = (Ok info, w')
                 /\ mp709.info_id info = k)
      /\ (forall info w2,
            mp709.getInfo E self 100 w1 = (Ok info, w2) ->
            mp709.info_id info <> k ->
            exists e,
              mp709.__init__ E device k w
              = (Raise e, extend w2 (close_events self (devnum device)))
              /\ (usb_error E (trace w2 ++ [EvCall (devnum device) m_close])
                            (devnum device) OpReleaseInterface = false ->
                  e = ValueError))).
Proof.
  intros Hv Hp Hc Ha Hi Ho.
  rewrite (init_after_open E device k w conf alts i self w1) by assumption.
  destruct (open_fresh_ok _ _ _ _ _ _ Ho) as (c & Hc' & Hself & Hw1).
  rewrite Hc in Hc'. injection Hc' as <-.
  assert (Hid : mp709.self_id self = devnum device) by (subst self; reflexivity).
  assert (Hh : mp709.handle self = Some (devnum device))
    by (subst self; reflexivity).
  split.
  - intros ->. cbn [Z.eqb negb]. repeat split.
    + exact Hw1.
    + rewrite Hw1. unfold extend. cbn [trace].
      rewrite count_app. cbn. lia.
    + rewrite Hw1. unfold extend. cbn [trace].
      rewrite count_app. cbn. lia.
  - intros Hk. split; [|split; [|split]].
    + rewrite <- Hid. apply filter_consults_getInfo. exact Hk.
    + intros info w2 Hg Hk'.
      apply Z.eqb_neq in Hk. rewrite Hk. cbn [negb].
      unfold bind. rewrite Hg.
      apply Z.eqb_eq in Hk'. rewrite Hk'. reflexivity.
    + intros c0 w'.
      apply Z.eqb_neq in Hk. rewrite Hk. cbn [negb].
      unfold bind at 1.
      destruct (mp709.getInfo E self 100 w1) as [[info|e] w2]; [|discriminate].
      destruct (mp709.info_id info =? k) eqn:Hm; cbn [negb].
      * intros [= <- <-]. split; [reflexivity|].
        exists info. apply Z.eqb_eq in Hm. auto.
      * intros H. exfalso. revert H. apply then_raise_not_ok.
    + intros info w2 Hg Hk'.
      apply Z.eqb_neq in Hk. rewrite Hk. cbn [negb].
      unfold bind at 1. rewrite Hg.
      apply Z.eqb_neq in Hk'. rewrite Hk'. cbn [negb].
      destruct (close_then_raise E self (devnum device) w2 Hh)
        as (e & He1 & He2).
      rewrite Hid in He2. exists e. split; assumption.
Qed.

Lemma init_id_filter_witness :
  mp709.__init__ (Bench.env [Bench.relay 2] Bench.report_off)
                 (Bench.relay 2) 20 (Bench.start 30)
  = (Ok (Bench.client 2),
     extend (extend (Bench.start 30)
                    (open_events (Bench.relay 2) Bench.cfg Bench.ifc))
            (exchange (Bench.client 2) 2%nat m_getInfo mp709.GET_INFO 100)).
Proof.
  destruct (init_id_filter (Bench.env [Bench.relay 2] Bench.report_off)
              (Bench.relay 2) 20 (Bench.start 30)
              Bench.cfg [Bench.ifc] Bench.ifc (Bench.client 2)
              (extend (Bench.start 30)
                      (open_events (Bench.relay 2) Bench.cfg Bench.ifc))
              eq_refl eq_refl eq_refl eq_refl eq_refl eq_refl) as [_ H].
  destruct (H ltac:(discriminate)) as (_ & Hkeep & _).
  apply (Hkeep {| mp709.info_family := 1; mp709.info_version := 0x0302;
                  mp709.info_id := 20 |}); reflexivity.
Defined.

(** C10.  With a negative target filter no construction succeeds, also for
    a device of the right identity: the filter is not zero, so [getInfo]
    is consulted once the session is open, the id it decodes lies in
    [0, 2^32-1], and a negative filter never equals it.  The enumeration
    of a controller with such a filter therefore never returns a list. *)
Theorem negative_id_rejects E device k w :
  k < 0 ->
  (forall c w', mp709.__init__ E device k w <> (Ok c, w'))
  /\ (forall self timeout w0 info w1,
        mp709.getInfo E self timeout w0 = (Ok info, w1) ->
        0 <= mp709.info_id info <= 2 ^ 32 - 1)
  /\ (forall conf alts i self w1,
        idVendor device = 0x16C0 -> idProduct device = 0x05DF ->
        first (configurations device) = Ok conf ->
        first (interfaces conf) = Ok alts ->
        first alts = Ok i ->
        mp709.open E (fresh device i) w = (Ok self, w1) ->
        exists d, trace (snd (mp709.__init__ E device k w))
                  = trace w1 ++ EvCall (devnum device) m_getInfo :: d)
  /\ (forall control rs w',
        relaysControl.id control = k ->
        relaysControl.enumerateRelays E control w <> (Ok rs, w')).
Proof.
  intros Hk. split; [|split; [|split]].
  - intros c w'. apply negative_id_never_ok. exact Hk.
  - intros self timeout w0 info w1. apply getInfo_id_range.
  - intros conf alts i self w1 Hv Hp Hc Ha Hi Ho.
    rewrite (init_after_open E device k w conf alts i self w1) by assumption.
    destruct (open_fresh_ok _ _ _ _ _ _ Ho) as (c & _ & Hself & _).
    replace (devnum device) with (mp709.self_id self)
      by (subst self; reflexivity).
    apply filter_consults_getInfo. lia.
  - intros control rs w' Hid.
    unfold relaysControl.enumerateRelays, bind at 1, emit.
    unfold bind at 1.
    destruct (relaysControl.enumerate_busses E control (busses E) [] _)
      as [[rs1|e] w1] eqn:Hb; [|discriminate].
    apply enumerate_busses_none in Hb.
    + subst rs1. cbn [List.length Z.of_nat Z.eqb]. apply then_raise_not_ok.
    + intros dev w2 c w3. rewrite Hid. apply negative_id_never_ok. exact Hk.
Qed.

Lemma negative_id_rejects_witness :
  ~ (exists c w',
       mp709.__init__ (Bench.env [Bench.relay 2] Bench.report_off)
                      (Bench.relay 2) (-5) (Bench.start 30) = (Ok c, w')).
Proof.
  intros (c & w' & H).
  destruct (negative_id_rejects (Bench.env [Bench.relay 2] Bench.report_off)
              (Bench.relay 2) (-5) (Bench.start 30)) as [Hrej _].
  - lia.
  - exact (Hrej c w' H).
Defined.

(** ** Fleet controller *)

(** C3.  Toggle, for every client of a pass.  When the pass over a list
    has reached the client [r] (the clients before it are done) and
    [getPort] answers [p] on it, the step of [r] calls [setPort(not p)]
    on [r] exactly once, right after the read, and makes no other
    [setPort] call, so none [setPort(p)]; the pass then goes on with the
    clients behind [r], or ends with the exception of the step.  With
    [p = true] this is one [setPort(false)] and no [setPort(true)], with
    [p = false] the other way round. *)
Theorem toggle_negates E control pre r post w0 w p w1 :
  relaysControl.state control = relayState.toggle ->
  relaysControl.controlRelays E control pre w0 = (Ok tt, w) ->
  mp709.getPort E r 100 w = (Ok p, w1) ->
  exists res d,
    let w2 := extend w1 (EvCall (mp709.self_id r) (m_setPort (negb p)) :: d) in
    let calls b := count (is_call (mp709.self_id r) (m_setPort b)) in
    relaysControl.controlRelay E control r w = (res, w2)
    /\ Forall (fun e => is_setPort_call e = false) d
    /\ relaysControl.controlRelays E control (pre ++ r :: post) w0
       = match res with
         | Ok _ => relaysControl.controlRelays E control post w2
         | Raise e => (Raise e, w2)
         end
    /\ calls (negb p) (trace w2) = S (calls (negb p) (trace w))
    /\ calls p (trace w2) = calls p (trace w)
    /\ count is_setPort_call (trace w2) = S (count is_setPort_call (trace w)).
Proof.
  intros Hs Hpre Hg.
  destruct (toggle_step E control r w p w1 Hs Hg) as (res & d & Hstep & Fd).
  exists res, d. cbv zeta.
  assert (Hw1 : w1 = snd (mp709.getPort E r 100 w)) by (rewrite Hg; reflexivity).
  assert (Hnone : forall b,
            count (is_call (mp709.self_id r) (m_setPort b)) d = 0%nat).
  { intros b. apply count_none. eapply Forall_impl; [|exact Fd].
    intros [| | s [] | |]; cbn; try reflexivity; discriminate. }
  split; [exact Hstep|]. split; [exact Fd|]. split.
  - rewrite (pass_at E control pre r post w0 w Hpre), Hstep.
    destruct res; reflexivity.
  - unfold extend. cbn [trace].
    change (EvCall (mp709.self_id r) (m_setPort (negb p)) :: d)
      with ([EvCall (mp709.self_id r) (m_setPort (negb p))] ++ d).
    rewrite !count_app, !Hnone, (count_none _ _ Fd).
    rewrite !Hw1, !quiet_count by quietly.
    unfold count at 2 5 8. cbn [filter].
    rewrite is_call_same.
    replace (is_call (mp709.self_id r) (m_setPort p)
               (EvCall (mp709.self_id r) (m_setPort (negb p)))) with false
      by (destruct p; reflexivity).
    cbn [is_setPort_call List.length]. repeat split; lia.
Qed.

Lemma toggle_negates_witness :
  let E := Bench.env [Bench.relay 2; Bench.relay 3] Bench.report_on in
  let control := {| relaysControl.state := relayState.toggle;
                    relaysControl.id := 0 |} in
  exists w w1 (res : result unit) d,
    relaysControl.controlRelays E control [Bench.client 2] (Bench.start 30)
    = (Ok tt, w)
    /\ mp709.getPort E (Bench.client 3) 100 w = (Ok true, w1)
    /\ relaysControl.controlRelays E control [Bench.client 2; Bench.client 3]
         (Bench.start 30)
       = match res with
         | Ok _ => relaysControl.controlRelays E control []
                     (extend w1 (EvCall 3 (m_setPort false) :: d))
         | Raise e => (Raise e, extend w1 (EvCall 3 (m_setPort false) :: d))
         end
    /\ count (is_call 3 (m_setPort false))
         (trace (extend w1 (EvCall 3 (m_setPort false) :: d)))
       = S (count (is_call 3 (m_setPort false)) (trace w))
    /\ count (is_call 3 (m_setPort true))
         (trace (extend w1 (EvCall 3 (m_setPort false) :: d)))
       = count (is_call 3 (m_setPort true)) (trace w).
Proof.
  cbv zeta.
  destruct (toggle_negates
              (Bench.env [Bench.relay 2; Bench.relay 3] Bench.report_on)
              {| relaysControl.state := relayState.toggle;
                 relaysControl.id := 0 |}
              [Bench.client 2] (Bench.client 3) [] (Bench.start 30)
              (snd (relaysControl.controlRelays
                      (Bench.env [Bench.relay 2; Bench.relay 3] Bench.report_on)
                      {| relaysControl.state := relayState.toggle;
                         relaysControl.id := 0 |}
                      [Bench.client 2] (Bench.start 30)))
              true
              (snd (mp709.getPort
                      (Bench.env [Bench.relay 2; Bench.relay 3] Bench.report_on)
                      (Bench.client 3) 100
                      (snd (relaysControl.controlRelays
                              (Bench.env [Bench.relay 2; Bench.relay 3]
                                         Bench.report_on)
                              {| relaysControl.state := relayState.toggle;
                                 relaysControl.id := 0 |}
                              [Bench.client 2] (Bench.start 30)))))
              eq_refl eq_refl eq_refl)
    as (res & d & _ & _ & Hpass & Hneg & Hsame & _).
  eexists. eexists. exists res, d.
  split; [reflexivity|]. split; [reflexivity|].
  split; [exact Hpass|]. split; [exact Hneg|exact Hsame].
Defined.

(** C9, as the code has it.  With one matched client and the NoChange
    policy, a pass issues no mutating transfer and calls [setPort] never.
    When the threshold of the logger admits INFO (level <= 20) it makes
    exactly one status call [__str__], on that client, emitted after the
    (empty) per-client action: the call is the first event of the pass
    and the status record the last.  Above that threshold the pass adds
    nothing to the history, so [__str__] is not called.  For a pass over
    several clients the same holds client by client: the history gained
    is one such block per client, in the order of the list. *)
Theorem noChange_pass E control relays w :
  relaysControl.state control = relayState.noChange ->
  exists delta,
    relaysControl.controlRelays E control relays w = (Ok tt, extend w delta)
    /\ Forall (fun e => is_setPort_call e = false) delta
    /\ Forall (fun e => is_mutating e = false) delta
    /\ (log_level w > logging.INFO -> delta = [])
    /\ (log_level w <= logging.INFO ->
        exists blocks,
          delta = List.concat blocks /\ Forall2 status_block relays blocks)
    /\ filter is_str_call delta
       = (if log_level w <=? logging.INFO
          then map (fun r => EvCall (mp709.self_id r) m_str) relays
          else [])
    /\ (forall r, relays = [r] -> log_level w <= logging.INFO ->
        status_block r delta).
Proof.
  intros Hs.
  destruct (Z_gt_le_dec (log_level w) logging.INFO) as [Hgt|Hle].
  - exists []. rewrite extend_nil.
    replace (log_level w <=? logging.INFO) with false
      by (symmetry; apply Z.leb_gt; lia).
    split; [apply noChange_silent; assumption|].
    repeat split; try constructor; intros; lia.
  - destruct (noChange_blocks E control Hs relays w Hle)
      as (blocks & Hrun & Hbs).
    destruct (status_blocks_facts relays blocks Hbs) as (B1 & B2 & B3).
    exists (List.concat blocks).
    replace (log_level w <=? logging.INFO) with true
      by (symmetry; apply Z.leb_le; exact Hle).
    split; [exact Hrun|]. split; [exact B2|]. split; [exact B3|].
    split; [intros; lia|]. split; [intros _; exists blocks; auto|].
    split; [exact B1|].
    intros r -> _.
    inversion Hbs as [|r0 blk rs bs Hb Hnil]; subst.
    inversion Hnil; subst. cbn [List.concat]. rewrite app_nil_r. exact Hb.
Qed.

Lemma noChange_pass_witness :
  let control := {| relaysControl.state := relayState.noChange;
                    relaysControl.id := 0 |} in
  let E := Bench.env [Bench.relay 2; Bench.relay 3] Bench.report_off in
  exists delta,
    relaysControl.controlRelays E control [Bench.client 2; Bench.client 3]
      (Bench.start logging.INFO)
    = (Ok tt, extend (Bench.start logging.INFO) delta)
    /\ Forall (fun e => is_setPort_call e = false) delta
    /\ Forall (fun e => is_mutating e = false) delta
    /\ filter is_str_call delta = [EvCall 2 m_str; EvCall 3 m_str].
Proof.
  cbv zeta.
  destruct (noChange_pass
              (Bench.env [Bench.relay 2; Bench.relay 3] Bench.report_off)
              {| relaysControl.state := relayState.noChange;
                 relaysControl.id := 0 |}
              [Bench.client 2; Bench.client 3] (Bench.start logging.INFO)
              eq_refl)
    as (delta & H1 & H2 & H3 & _ & _ & H6 & _).
  exists delta. split; [exact H1|]. split; [exact H2|]. split; [exact H3|].
  exact H6.
Defined.

(** C9 as stated fails at the threshold [main] sets when no [--verbose]
    is given (30): the pass over one matched client adds nothing to the
    history, so [__str__] is not called once but never; the same holds
    for the whole program run without options. *)
Lemma default_threshold_no_status_call :
  let E := Bench.env [Bench.relay 2] Bench.report_off in
  let pass := relaysControl.controlRelays E
                {| relaysControl.state := relayState.noChange;
                   relaysControl.id := 0 |}
                [Bench.client 2] (Bench.start 30) in
  let run := main E (Bench.getopt_pairs []) Bench.int_none []
                  (Bench.start logging.NOTSET) in
  pass = (Ok tt, Bench.start 30)
  /\ count is_str_call (trace (snd pass)) <> 1%nat
  /\ fst run = Ok tt
  /\ log_level (snd run) = 30
  /\ count is_str_call (trace (snd run)) = 0%nat.
Proof.
  cbv zeta. split; [reflexivity|]. split; [discriminate|].
  repeat split.
Qed.

(** C7.  When the enumeration ends with no client (no descriptor was
    identified), the controller's [main] fails with [RuntimeWarning]
    after the note "No relay found", and the whole run contains no call
    of [setPort] and none of [getPort].  (Lemma [strangers_only_no_relay]
    shows one way to get there: no device on any bus has the identity of
    the relay.) *)
Theorem empty_discovery_fails E control w w1 :
  relaysControl.enumerate_busses E control (busses E) [] (extend w [EvBusses])
  = (Ok [], w1) ->
  relaysControl.main E control w
  = (Raise RuntimeWarning,
     snd (log.info E (log.Str "No relay found") w1))
  /\ exists delta,
       snd (relaysControl.main E control w) = extend w delta
       /\ Forall (fun e => is_port_call e = false) delta
       /\ count is_port_call (trace (snd (relaysControl.main E control w)))
          = count is_port_call (trace w).
Proof.
  intros Hb.
  pose proof (enumerateRelays_empty E control w w1 Hb) as He.
  assert (Hmain : relaysControl.main E control w
                  = (Raise RuntimeWarning,
                     snd (log.info E (log.Str "No relay found") w1))).
  { unfold relaysControl.main, bind. rewrite He. reflexivity. }
  split; [exact Hmain|].
  destruct (quiet_enumerateRelays E control w) as (delta & Hd & Fd).
  rewrite He in Hd. cbn [snd] in Hd.
  exists delta. rewrite Hmain. cbn [snd]. rewrite Hd.
  repeat split; try assumption.
  unfold extend. cbn [trace].
  rewrite count_app, (count_none _ _ Fd). lia.
Qed.

Lemma empty_discovery_fails_witness :
  relaysControl.main (Bench.env [Bench.stranger 1] Bench.report_off)
                     relaysControl.__init__ (Bench.start logging.INFO)
  = (Raise RuntimeWarning,
     extend (Bench.start logging.INFO)
            [EvBusses; EvLog logging.INFO (LogText "No relay found")]).
Proof.
  destruct (empty_discovery_fails
              (Bench.env [Bench.stranger 1] Bench.report_off)
              relaysControl.__init__ (Bench.start logging.INFO)
              (extend (Bench.start logging.INFO) [EvBusses]) eq_refl)
    as [Hmain _].
  exact Hmain.
Defined.

(** ** Command line *)

(** C8.  A state string outside on, off, noChange, toggle makes
    [setState] fail with [KeyError] without touching any device, and a
    command line that carries such a [--state] ends the program before the
    bus is enumerated and before any device operation: the history gains
    only log records and printed lines.  The exit code is 3 unless a help
    or version option came first. *)
Theorem unknown_state_rejected E getopt int argv args pre o a post w :
  getopt argv = Some (pre ++ (o, a) :: post, args) ->
  one_of o "-s" "--state" = true ->
  ~ In a ["on"; "off"; "noChange"; "toggle"]%string ->
  (forall control w0,
     fst (relaysControl.setState E control a w0) = Raise (KeyError a)
     /\ exists d,
          snd (relaysControl.setState E control a w0) = extend w0 d
          /\ Forall (fun e => is_device_io e = false) d)
  /\ exists code d,
       main E getopt int argv w
       = (Raise (SystemExit code),
          {| trace := trace w ++ d; log_level := logging.NOTSET |})
       /\ Forall (fun e => is_device_io e = false) d
       /\ (Forall (fun oa => exits_early oa = false) pre -> code = 3).
Proof.
  intros Hg Ho Hn. split.
  - intros control w0. split.
    + apply setState_unsupported. exact Hn.
    + apply quiet_setState.
  - unfold main. unfold bind at 1, log.setLevel at 1.
    rewrite Hg. unfold bind at 1, ret at 1.
    set (w0 := {| trace := trace w; log_level := logging.NOTSET |}).
    unfold bind at 1, attempt. unfold bind at 1.
    destruct (main_options_bad_state E int pre o a post Ho Hn
                relaysControl.__init__ 30 w0) as (e & He & Hcode).
    destruct (quiet_main_options E int (pre ++ (o, a) :: post)
                relaysControl.__init__ 30 w0) as (d & Hd & Fd).
    destruct (main_options E int (pre ++ (o, a) :: post)
                relaysControl.__init__ 30 w0) as [r w1].
    cbn [fst] in He. cbn [snd] in Hd. subst r w1.
    assert (Hfail : (log.error E (log.Str "Failed") ;; @sys_exit unit 3)
                      (extend w0 d)
                    = (Raise (SystemExit 3),
                       {| trace := trace w
                                   ++ d ++ [EvLog logging.ERROR (LogText "Failed")];
                          log_level := logging.NOTSET |})).
    { unfold log.error, log.log, log.handle, log.isEnabledFor, sys_exit,
        bind, emit, ret, raise, extend, w0.
      cbn [trace log_level Z.leb Z.compare logging.NOTSET logging.ERROR].
      rewrite <- app_assoc. reflexivity. }
    assert (Fd' : Forall (fun e => is_device_io e = false)
                    (d ++ [EvLog logging.ERROR (LogText "Failed")])).
    { apply Forall_app. split; [exact Fd|].
      constructor; [reflexivity|constructor]. }
    destruct e;
      try (exists 3, (d ++ [EvLog logging.ERROR (LogText "Failed")]);
           split; [exact Hfail|split; [exact Fd'|reflexivity]]).
    exists code, d. split; [reflexivity|]. split; [exact Fd|].
    intros Hpre. exfalso. exact (Hcode Hpre code eq_refl).
Qed.

Lemma unknown_state_rejected_witness :
  exists code d,
    main (Bench.env [Bench.relay 2] Bench.report_on)
         (Bench.getopt_pairs [("-v", EmptyString); ("--state", "blink")]%string)
         Bench.int_none ["-v"; "--state"; "blink"]%string (Bench.start 30)
    = (Raise (SystemExit code),
       {| trace := trace (Bench.start 30) ++ d;
          log_level := logging.NOTSET |})
    /\ Forall (fun e => is_device_io e = false) d
    /\ (Forall (fun oa => exits_early oa = false) [("-v", EmptyString)]%string ->
        code = 3).
Proof.
  apply (unknown_state_rejected
           (Bench.env [Bench.relay 2] Bench.report_on)
           (Bench.getopt_pairs [("-v", EmptyString); ("--state", "blink")]%string)
           Bench.int_none ["-v"; "--state"; "blink"]%string []
           [("-v", EmptyString)]%string "--state"%string "blink"%string []
           (Bench.start 30)).
  - reflexivity.
  - reflexivity.
  - cbn. intros [H|[H|[H|[H|[]]]]]; discriminate.
Defined.

(** * Further properties of the code *)

(** ** The session *)

Lemma close_result E self w self' w' :
  mp709.close E self w = (Ok self', w') ->
  self' = {| mp709.self_id := mp709.self_id self; mp709.handle := None;
             mp709.dev := None; mp709.intf := None;
             mp709.intfNum := mp709.intfNum self |}.
Proof.
  unfold mp709.close, mp709.usb_call, bind, emit, ret.
  destruct (mp709.handle self) as [h|]; cbn [trace log_level].
  - destruct (usb_error E _ h OpReleaseInterface); [discriminate|].
    intros [= <- _]. reflexivity.
  - intros [= <- _]. reflexivity.
Qed.

(** X1.  [close] is idempotent: a client that has been closed holds no
    handle, device or interface, a second [close] returns the same client
    and performs no USB operation, and [__del__] does nothing at all. *)
Theorem close_idempotent E self w self' w' :
  mp709.close E self w = (Ok self', w') ->
  mp709.handle self' = None /\ mp709.dev self' = None
  /\ mp709.intf self' = None
  /\ mp709.close E self' w'
     = (Ok self', extend w' [EvCall (mp709.self_id self') m_close])
  /\ mp709.__del__ E self' w' = (Ok self', w').
Proof.
  intros Hc. apply close_result in Hc. subst self'.
  repeat split.
Qed.

Lemma close_idempotent_witness :
  let E := Bench.env [Bench.relay 2] Bench.report_on in
  let closed := {| mp709.self_id := 2%nat; mp709.handle := None;
                   mp709.dev := None; mp709.intf := None;
                   mp709.intfNum := 0 |} in
  let w' := extend (Bench.start 30)
                   [EvCall 2 m_close; EvUsb 2 OpReleaseInterface] in
  mp709.close E closed w' = (Ok closed, extend w' [EvCall 2 m_close])
  /\ mp709.__del__ E closed w' = (Ok closed, w').
Proof.
  cbv zeta.
  destruct (close_idempotent (Bench.env [Bench.relay 2] Bench.report_on)
              (Bench.client 2) (Bench.start 30)
              {| mp709.self_id := 2%nat; mp709.handle := None;
                 mp709.dev := None; mp709.intf := None; mp709.intfNum := 0 |}
              (extend (Bench.start 30)
                      [EvCall 2 m_close; EvUsb 2 OpReleaseInterface])
              eq_refl) as (_ & _ & _ & H1 & H2).
  split; assumption.
Defined.

(** X2.  A client without a handle refuses every relay operation before
    any transfer: [setPort], [getPort] and [getInfo] raise
    [AttributeError] having recorded only their call, and [__str__]
    answers "No MP709 device" without querying anything. *)
Theorem closed_client_refuses E self w :
  mp709.handle self = None ->
  (forall state timeout,
     mp709.setPort E self state timeout w
     = (Raise AttributeError,
        extend w [EvCall (mp709.self_id self) (m_setPort state)]))
  /\ (forall timeout,
        mp709.getPort E self timeout w
        = (Raise AttributeError,
           extend w [EvCall (mp709.self_id self) m_getPort]))
  /\ (forall timeout,
        mp709.getInfo E self timeout w
        = (Raise AttributeError,
           extend w [EvCall (mp709.self_id self) m_getInfo]))
  /\ mp709.__str__ E self w
     = (Ok "No MP709 device"%string,
        extend w [EvCall (mp709.self_id self) m_str]).
Proof.
  intros Hh.
  unfold mp709.setPort, mp709.getPort, mp709.getInfo, mp709.__str__,
    mp709.the_handle, bind, emit, raise, ret, extend.
  rewrite Hh. repeat split.
Qed.

Lemma closed_client_refuses_witness :
  let closed := {| mp709.self_id := 2%nat; mp709.handle := None;
                   mp709.dev := None; mp709.intf := None;
                   mp709.intfNum := 0 |} in
  mp709.__str__ (Bench.env [Bench.relay 2] Bench.report_on) closed
                (Bench.start 30)
  = (Ok "No MP709 device"%string, extend (Bench.start 30) [EvCall 2 m_str]).
Proof.
  cbv zeta.
  apply (closed_client_refuses (Bench.env [Bench.relay 2] Bench.report_on)
           {| mp709.self_id := 2%nat; mp709.handle := None;
              mp709.dev := None; mp709.intf := None; mp709.intfNum := 0 |}
           (Bench.start 30)).
  reflexivity.
Defined.

(** X3.  [open] succeeds only on an instance that holds no handle and has
    a device.  On a client whose session is open it first closes that
    session, which forgets the device, and then fails: [releaseInterface]
    is the only USB operation, and the exception is [AttributeError]
    unless the release itself raised. *)
Theorem open_needs_fresh E self w :
  (forall s w', mp709.open E self w = (Ok s, w') ->
     mp709.handle self = None /\ exists d, mp709.dev self = Some d)
  /\ (forall h, mp709.handle self = Some h ->
      exists e,
        mp709.open E self w
        = (Raise e,
           extend w [EvCall (mp709.self_id self) m_open;
                     EvCall (mp709.self_id self) m_close;
                     EvUsb h OpReleaseInterface])
        /\ (e = AttributeError \/ e = USBError)
        /\ (usb_error E (trace w ++ [EvCall (mp709.self_id self) m_open;
                                     EvCall (mp709.self_id self) m_close])
                      h OpReleaseInterface = false -> e = AttributeError)).
Proof.
  assert (Hopen : forall h, mp709.handle self = Some h ->
            exists e,
              mp709.open E self w
              = (Raise e,
                 extend w [EvCall (mp709.self_id self) m_open;
                           EvCall (mp709.self_id self) m_close;
                           EvUsb h OpReleaseInterface])
              /\ (e = AttributeError \/ e = USBError)
              /\ (usb_error E (trace w ++ [EvCall (mp709.self_id self) m_open;
                                           EvCall (mp709.self_id self) m_close])
                            h OpReleaseInterface = false -> e = AttributeError)).
  { intros h Hh.
    unfold mp709.open, mp709.close, mp709.usb_call, bind, emit, ret, raise,
      extend.
    rewrite Hh. cbn [trace log_level].
    rewrite <- !app_assoc. cbn [app].
    destruct (usb_error E _ h OpReleaseInterface).
    - exists USBError. repeat split; auto. discriminate.
    - exists AttributeError. cbn [mp709.dev]. repeat split; auto. }
  split; [|exact Hopen].
  intros s w' Ho.
  destruct (mp709.handle self) as [h|] eqn:Hh.
  - destruct (Hopen h eq_refl) as (e & He & _). rewrite He in Ho. discriminate.
  - split; [reflexivity|].
    destruct (mp709.dev self) as [d|] eqn:Hd; [eauto|].
    exfalso. revert Ho.
    unfold mp709.open, bind, emit, ret, raise.
    rewrite Hh. cbn [trace log_level]. rewrite Hd. discriminate.
Qed.

Lemma open_fresh_complete E device c i w :
  first (configurations device) = Ok c ->
  session_ok E device c i w ->
  mp709.open E (fresh device i) w
  = (Ok (opened device i), extend w (open_events device c i)).
Proof.
  intros Hc (H1 & H2 & H3 & H4).
  unfold mp709.open, fresh, opened, bind, attempt, emit, ret, raise, lift,
    mp709.usb_call, extend, open_events.
  cbn [mp709.handle mp709.dev mp709.intf mp709.self_id mp709.intfNum
       trace log_level fst snd].
  rewrite H1. cbn [trace log_level].
  destruct (usb_error E _ _ (OpDetachKernelDriver _));
    rewrite Hc; cbn [trace log_level];
    rewrite H2; cbn [trace log_level];
    rewrite H3; cbn [trace log_level];
    rewrite H4; cbn [trace log_level];
    rewrite <- !app_assoc; reflexivity.
Qed.

Lemma open_fresh_sound E device c i w s w1 :
  first (configurations device) = Ok c ->
  mp709.open E (fresh device i) w = (Ok s, w1) ->
  session_ok E device c i w.
Proof.
  intros Hc.
  unfold mp709.open, fresh, bind, attempt, emit, ret, raise, lift,
    mp709.usb_call, session_ok.
  cbn [mp709.handle mp709.dev mp709.intf mp709.self_id mp709.intfNum
       trace log_level fst snd].
  destruct (usb_error E _ _ OpOpen) eqn:H1; [discriminate|].
  destruct (usb_error E _ _ (OpDetachKernelDriver _));
    rewrite Hc; cbn [trace log_level];
    (destruct (usb_error E _ _ (OpSetConfiguration _)) eqn:H2; [discriminate|]);
    cbn [trace log_level];
    (destruct (usb_error E _ _ (OpClaimInterface _)) eqn:H3; [discriminate|]);
    cbn [trace log_level];
    (destruct (usb_error E _ _ (OpSetAltInterface _)) eqn:H4; [discriminate|]);
    intros _; repeat split; assumption.
Qed.

(** X4.  Detaching the kernel driver is best effort: on a fresh instance
    of a device with a configuration, [open] succeeds exactly when
    opening the device, setting the configuration, claiming the interface
    and selecting the alternate setting do not raise, whatever
    [detachKernelDriver] does; it then holds a handle on that device and
    has attempted the six operations in their order. *)
Theorem open_succeeds_iff E device c i w :
  first (configurations device) = Ok c ->
  ((exists s w1, mp709.open E (fresh device i) w = (Ok s, w1))
   <-> session_ok E device c i w)
  /\ (session_ok E device c i w ->
      mp709.open E (fresh device i) w
      = (Ok (opened device i), extend w (open_events device c i))).
Proof.
  intros Hc. split; [split|].
  - intros (s & w1 & Ho). exact (open_fresh_sound E device c i w s w1 Hc Ho).
  - intros Hs. eexists. eexists. apply open_fresh_complete; eassumption.
  - apply open_fresh_complete. exact Hc.
Qed.

Lemma open_succeeds_iff_witness :
  mp709.open (Bench2.env_no_detach [Bench.relay 2] Bench.report_on)
             (fresh (Bench.relay 2) Bench.ifc) (Bench.start 30)
  = (Ok (opened (Bench.relay 2) Bench.ifc),
     extend (Bench.start 30)
            (open_events (Bench.relay 2) Bench.cfg Bench.ifc)).
Proof.
  apply (open_succeeds_iff
           (Bench2.env_no_detach [Bench.relay 2] Bench.report_on)
           (Bench.relay 2) Bench.cfg Bench.ifc (Bench.start 30)).
  - reflexivity.
  - repeat split.
Defined.

(** ** The codec *)

Lemma byte_of_Z_of_byte b : byte_of_Z (Z.of_N (Byte.to_N b)) = b.
Proof.
  unfold byte_of_Z. rewrite N2Z.id, Byte.of_to_N. reflexivity.
Qed.

Lemma info_response_of_bytes b0 b1 b2 b3 b4 b5 b6 b7 :
  let z b := Z.of_N (Byte.to_N b) in
  info_response b0 (z b1) (z b2 + z b3 * 256)
    (z b7 + z b6 * 256 + z b5 * 65536 + z b4 * 16777216)
  = [b0; b1; b2; b3; b4; b5; b6; b7].
Proof.
  intros z. unfold info_response.
  assert (R : forall b, 0 <= z b <= 255).
  { intros b. unfold z. pose proof (Byte.to_N_bounded b). lia. }
  pose proof (R b2). pose proof (R b3). pose proof (R b4). pose proof (R b5).
  pose proof (R b6). pose proof (R b7).
  replace ((z b2 + z b3 * 256) mod 256) with (z b2)
    by (Z.div_mod_to_equations; lia).
  replace ((z b2 + z b3 * 256) / 256) with (z b3)
    by (Z.div_mod_to_equations; lia).
  replace ((z b7 + z b6 * 256 + z b5 * 65536 + z b4 * 16777216) / 2 ^ 24)
    with (z b4) by (Z.div_mod_to_equations; lia).
  replace (((z b7 + z b6 * 256 + z b5 * 65536 + z b4 * 16777216) / 2 ^ 16)
             mod 256) with (z b5) by (Z.div_mod_to_equations; lia).
  replace (((z b7 + z b6 * 256 + z b5 * 65536 + z b4 * 16777216) / 2 ^ 8)
             mod 256) with (z b6) by (Z.div_mod_to_equations; lia).
  replace ((z b7 + z b6 * 256 + z b5 * 65536 + z b4 * 16777216) mod 256)
    with (z b7) by (Z.div_mod_to_equations; lia).
  unfold z. rewrite !byte_of_Z_of_byte. reflexivity.
Qed.

(** X5.  Decoding loses nothing: every 8-byte response decodes, to a
    family in [0,255], a version in [0,65535] and an id in [0,2^32-1],
    and laying these three values out again (behind the same byte 0)
    gives back the response, so two 8-byte responses with the same
    decoded info differ at most in byte 0. *)
Theorem getInfo_decode_lossless bytes :
  List.length bytes = 8%nat ->
  exists i,
    mp709.getInfo_decode (Received bytes) = Ok i
    /\ 0 <= mp709.info_family i <= 255
    /\ 0 <= mp709.info_version i <= 65535
    /\ 0 <= mp709.info_id i <= 2 ^ 32 - 1
    /\ info_response (nth 0 bytes x00) (mp709.info_family i)
         (mp709.info_version i) (mp709.info_id i) = bytes.
Proof.
  intros Hl.
  destruct bytes as [|b0 [|b1 [|b2 [|b3 [|b4 [|b5 [|b6 [|b7 [|b8 l]]]]]]]]];
    try discriminate.
  rewrite getInfo_decode_long by (cbn; lia).
  eexists. split; [reflexivity|].
  unfold byte_at. cbn [nth mp709.info_family mp709.info_version mp709.info_id].
  pose proof (Byte.to_N_bounded b1). pose proof (Byte.to_N_bounded b2).
  pose proof (Byte.to_N_bounded b3). pose proof (Byte.to_N_bounded b4).
  pose proof (Byte.to_N_bounded b5). pose proof (Byte.to_N_bounded b6).
  pose proof (Byte.to_N_bounded b7).
  repeat split; try lia.
  apply info_response_of_bytes.
Qed.

Lemma getInfo_decode_lossless_witness :
  exists i,
    mp709.getInfo_decode (Received Bench.report_off) = Ok i
    /\ 0 <= mp709.info_family i <= 255
    /\ 0 <= mp709.info_version i <= 65535
    /\ 0 <= mp709.info_id i <= 2 ^ 32 - 1
    /\ info_response (nth 0 Bench.report_off x00) (mp709.info_family i)
         (mp709.info_version i) (mp709.info_id i) = Bench.report_off.
Proof.
  apply getInfo_decode_lossless. reflexivity.
Defined.





(** ** The policies *)

Lemma log_info_disabled E msg w :
  log_level w > logging.INFO -> log.info E msg w = (Ok tt, w).
Proof.
  intros Hl. unfold log.info, log.log, log.isEnabledFor, bind, ret.
  replace (log_level w <=? logging.INFO) with false
    by (symmetry; apply Z.leb_gt; lia).
  reflexivity.
Qed.

Lemma setPort_run E r b timeout w :
  exists res d,
    mp709.setPort E r b timeout w
    = (res, extend w (EvCall (mp709.self_id r) (m_setPort b) :: d))
    /\ ((mp709.handle r = None /\ d = [] /\ res = Raise AttributeError)
        \/ exists h,
             mp709.handle r = Some h
             /\ d = [EvUsb h (report_write r
                                (if b then mp709.SET_PORT_ON
                                 else mp709.SET_PORT_OFF) timeout)]
             /\ (res = Raise USBError \/ res = Ok (Written 7))).
Proof.
  unfold mp709.setPort, mp709.the_handle, mp709.controlMsg, mp709.usb_call,
    bind, emit, ret, raise, extend, report_write.
  destruct (mp709.handle r) as [h|]; cbn [trace log_level].
  - destruct (usb_error E _ h _).
    + eexists. eexists. split.
      * rewrite <- app_assoc. reflexivity.
      * right. exists h. auto.
    + eexists. eexists. split.
      * rewrite <- app_assoc. reflexivity.
      * right. exists h. repeat split. right. destruct b; reflexivity.
  - eexists. exists []. split; [reflexivity|]. left. auto.
Qed.

Lemma count_setPort_of_none b d :
  Forall (fun e => is_setPort_call e = false) d ->
  count (is_setPort_of b) d = 0%nat.
Proof.
  intros F. apply count_none. eapply Forall_impl; [|exact F].
  intros [| | s [] | |]; cbn; try reflexivity; discriminate.
Qed.

Lemma count_cons P e d :
  count P (e :: d) = ((if P e then 1 else 0) + count P d)%nat.
Proof. unfold count. cbn [filter]. destruct (P e); reflexivity. Qed.

(** One client under On or Off. *)
Lemma on_off_step E control r w b :
  (relaysControl.state control = relayState.on /\ b = true)
  \/ (relaysControl.state control = relayState.off /\ b = false) ->
  exists res d,
    relaysControl.controlRelay E control r w
    = (res, extend w (EvCall (mp709.self_id r) (m_setPort b) :: d))
    /\ Forall (fun e => is_setPort_call e = false) d
    /\ (count is_mutating d <= 1)%nat
    /\ (res = Ok tt -> count is_mutating d = 1%nat)
    /\ (log_level w > logging.INFO ->
        count is_transfer d = count is_mutating d).
Proof.
  intros Hs.
  assert (Hbody : relaysControl.controlRelay E control r w
                  = ((mp709.setPort E r b 100 ;; ret tt) ;;
                     log.info E (log.Obj r)) w).
  { unfold relaysControl.controlRelay.
    destruct Hs as [[-> ->]|[-> ->]]; reflexivity. }
  rewrite Hbody. clear Hbody Hs.
  destruct (setPort_run E r b 100 w) as (res & d & Hrun & Hcase).
  unfold bind at 1. unfold bind at 1. rewrite Hrun.
  destruct Hcase as [(_ & -> & ->)|(h & _ & -> & [->| ->])].
  - exists (Raise AttributeError), []. cbn. repeat split; auto; discriminate.
  - exists (Raise USBError). eexists. split; [reflexivity|].
    split; [repeat constructor|].
    rewrite !count_cons. destruct b; cbn; repeat split; auto; discriminate.
  - unfold ret at 1.
    set (ev := EvUsb h (report_write r
                          (if b then mp709.SET_PORT_ON else mp709.SET_PORT_OFF)
                          100)).
    assert (Hmut : is_mutating ev = true) by (destruct b; reflexivity).
    destruct (Z_gt_le_dec (log_level w) logging.INFO) as [Hoff|Hen].
    + rewrite log_info_disabled by exact Hoff.
      exists (Ok tt), [ev]. split; [reflexivity|].
      split; [repeat constructor|].
      rewrite !count_cons, Hmut. cbn. repeat split; auto.
    + destruct (log_info_obj E r
                  (extend w [EvCall (mp709.self_id r) (m_setPort b); ev]))
        as (d2 & Hinfo & F1 & F2 & _).
      rewrite Hinfo. exists (Ok tt), (ev :: d2).
      rewrite extend_extend. split; [reflexivity|].
      split; [constructor; [reflexivity|exact F1]|].
      rewrite count_cons, Hmut, (count_none _ _ F2).
      repeat split; auto. intros Hoff. lia.
Qed.

Lemma on_off_run E control b :
  (relaysControl.state control = relayState.on /\ b = true)
  \/ (relaysControl.state control = relayState.off /\ b = false) ->
  forall relays w,
  exists res d,
    relaysControl.controlRelays E control relays w = (res, extend w d)
    /\ count (is_setPort_of (negb b)) d = 0%nat
    /\ (count (is_setPort_of b) d <= List.length relays)%nat
    /\ (count is_mutating d <= List.length relays)%nat
    /\ (res = Ok tt ->
        count (is_setPort_of b) d = List.length relays
        /\ count is_mutating d = List.length relays
        /\ (log_level w > logging.INFO ->
            count is_transfer d = List.length relays)).
Proof.
  intros Hs. induction relays as [|r relays IH]; intros w.
  - exists (Ok tt), []. cbn. rewrite extend_nil. repeat split; auto.
  - cbn [relaysControl.controlRelays]. unfold bind at 1.
    destruct (on_off_step E control r w b Hs)
      as (res & d & Hstep & F & Hle & Heq & Htr).
    rewrite Hstep.
    assert (Hcall_b : is_setPort_of b (EvCall (mp709.self_id r) (m_setPort b))
                      = true) by (destruct b; reflexivity).
    assert (Hcall_nb : is_setPort_of (negb b)
                         (EvCall (mp709.self_id r) (m_setPort b)) = false)
      by (destruct b; reflexivity).
    destruct res as [[]|e].
    + destruct (IH (extend w (EvCall (mp709.self_id r) (m_setPort b) :: d)))
        as (res2 & d2 & Hrun2 & N2 & L2 & M2 & Heq2).
      rewrite Hrun2. exists res2. eexists.
      rewrite extend_extend. split; [reflexivity|].
      cbn [app]. rewrite !count_cons, !count_app, Hcall_b, Hcall_nb.
      rewrite !(count_setPort_of_none _ _ F). cbn [List.length].
      specialize (Heq eq_refl).
      split; [lia|]. split; [lia|]. split; [cbn; lia|].
      intros ->. destruct (Heq2 eq_refl) as (E1 & E2 & E3).
      split; [lia|]. split; [cbn; lia|].
      intros Hoff. cbn [is_transfer]. rewrite (Htr Hoff), Heq.
      rewrite E3 by exact Hoff. lia.
    + exists (Raise e). eexists. split; [reflexivity|].
      rewrite !count_cons, Hcall_b, Hcall_nb.
      rewrite !(count_setPort_of_none _ _ F). cbn [List.length].
      split; [lia|]. split; [lia|]. split; [cbn; lia|]. discriminate.
Qed.

(** One client under On or Off, event by event. *)
Lemma on_off_step_events E control r w b :
  (relaysControl.state control = relayState.on /\ b = true)
  \/ (relaysControl.state control = relayState.off /\ b = false) ->
  exists res d,
    relaysControl.controlRelay E control r w
    = (res, extend w (setPort_call b r :: d))
    /\ filter is_setPort_call d = []
    /\ filter is_mutating d = setPort_write b r
    /\ (res = Ok tt -> mp709.handle r <> None)
    /\ (log_level w > logging.INFO -> filter is_transfer d = setPort_write b r).
Proof.
  intros Hs.
  assert (Hbody : relaysControl.controlRelay E control r w
                  = ((mp709.setPort E r b 100 ;; ret tt) ;;
                     log.info E (log.Obj r)) w).
  { unfold relaysControl.controlRelay.
    destruct Hs as [[-> ->]|[-> ->]]; reflexivity. }
  rewrite Hbody. clear Hbody Hs.
  destruct (setPort_run E r b 100 w) as (res & d & Hrun & Hcase).
  unfold bind at 1. unfold bind at 1. rewrite Hrun.
  unfold setPort_call, setPort_write.
  destruct Hcase as [(Hh & -> & ->)|(h & Hh & -> & [->| ->])]; rewrite Hh.
  - exists (Raise AttributeError), []. repeat split; auto; discriminate.
  - exists (Raise USBError). eexists. split; [reflexivity|].
    destruct b; cbn; repeat split; auto; discriminate.
  - unfold ret at 1.
    set (ev := EvUsb h (report_write r
                          (if b then mp709.SET_PORT_ON else mp709.SET_PORT_OFF)
                          100)).
    assert (Hmut : is_mutating ev = true) by (destruct b; reflexivity).
    destruct (Z_gt_le_dec (log_level w) logging.INFO) as [Hoff|Hen].
    + rewrite log_info_disabled by exact Hoff.
      exists (Ok tt), [ev]. split; [reflexivity|].
      cbn [filter]. rewrite Hmut. cbn. repeat split; auto; discriminate.
    + destruct (log_info_obj E r
                  (extend w [EvCall (mp709.self_id r) (m_setPort b); ev]))
        as (d2 & Hinfo & F1 & F2 & _).
      rewrite Hinfo. exists (Ok tt), (ev :: d2).
      rewrite extend_extend. split; [reflexivity|].
      cbn [filter]. rewrite Hmut.
      rewrite (filter_none _ _ F1), (filter_none _ _ F2).
      repeat split; auto; try discriminate. intros Hoff. lia.
Qed.

Lemma on_off_events_run E control b :
  (relaysControl.state control = relayState.on /\ b = true)
  \/ (relaysControl.state control = relayState.off /\ b = false) ->
  forall relays w,
  exists res d n,
    relaysControl.controlRelays E control relays w = (res, extend w d)
    /\ (n <= List.length relays)%nat
    /\ filter is_setPort_call d = map (setPort_call b) (firstn n relays)
    /\ filter is_mutating d = flat_map (setPort_write b) (firstn n relays)
    /\ (res = Ok tt ->
        n = List.length relays
        /\ Forall (fun r => mp709.handle r <> None) relays)
    /\ (forall e, res = Raise e -> (0 < n)%nat)
    /\ (log_level w > logging.INFO ->
        filter is_transfer d = flat_map (setPort_write b) (firstn n relays)).
Proof.
  intros Hs. induction relays as [|r relays IH]; intros w.
  - exists (Ok tt), [], 0%nat. cbn. rewrite extend_nil.
    repeat split; auto. discriminate.
  - cbn [relaysControl.controlRelays]. rewrite bind_eq.
    destruct (on_off_step_events E control r w b Hs)
      as (res & d & Hstep & Fs & Fm & Hh & Ft).
    rewrite Hstep.
    destruct res as [[]|e].
    + destruct (IH (extend w (setPort_call b r :: d)))
        as (res2 & d2 & n & Hrun & Hn & Cs & Cm & Hok & Hfail & Ct).
      rewrite Hrun, extend_extend.
      exists res2, ((setPort_call b r :: d) ++ d2), (S n).
      split; [reflexivity|]. split; [cbn [List.length]; lia|].
      cbn [firstn map flat_map app filter].
      unfold setPort_call at 1 3 5. cbn [is_setPort_call is_mutating is_transfer].
      fold (setPort_call b r).
      rewrite !filter_app, Fs, Fm, Cs, Cm. cbn [app].
      split; [reflexivity|]. split; [reflexivity|].
      split; [|split; [intros; lia|]].
      * intros Hres. destruct (Hok Hres) as [-> Hall].
        split; [reflexivity|]. constructor; [apply Hh; reflexivity|exact Hall].
      * intros Hoff. rewrite (Ft Hoff), (Ct Hoff). reflexivity.
    + exists (Raise e), (setPort_call b r :: d), 1%nat.
      split; [reflexivity|]. split; [cbn [List.length]; lia|].
      cbn [firstn map flat_map filter].
      unfold setPort_call at 1 3 5. cbn [is_setPort_call is_mutating is_transfer].
      fold (setPort_call b r).
      rewrite Fs, Fm, app_nil_r. cbn [map flat_map].
      split; [reflexivity|]. split; [reflexivity|].
      split; [discriminate|]. split; [intros; lia|].
      intros Hoff. rewrite (Ft Hoff). reflexivity.
Qed.

(** X7.  Under On (respectively Off) a pass over a list of clients goes
    through the list in order.  The [setPort] calls it makes are exactly
    one call [setPort(True)] (respectively [setPort(False)]) on each of
    the first [n] clients, in this order, and nothing else, so never a
    call with the other value; the mutating transfers it issues are
    exactly the one SET_PORT write of each of these clients.  When the
    pass completes, [n] is the length of the list, so every client was
    set once and has a handle; when it raises, at least one client was
    reached.  When the logger does not admit INFO these writes are the
    only transfers of the pass. *)
Theorem on_off_pass E control b relays w :
  (relaysControl.state control = relayState.on /\ b = true)
  \/ (relaysControl.state control = relayState.off /\ b = false) ->
  exists res delta n,
    relaysControl.controlRelays E control relays w = (res, extend w delta)
    /\ (n <= List.length relays)%nat
    /\ filter is_setPort_call delta = map (setPort_call b) (firstn n relays)
    /\ filter is_mutating delta
       = flat_map (setPort_write b) (firstn n relays)
    /\ (res = Ok tt ->
        n = List.length relays
        /\ Forall (fun r => mp709.handle r <> None) relays)
    /\ (forall e, res = Raise e -> (0 < n)%nat)
    /\ (log_level w > logging.INFO ->
        filter is_transfer delta
        = flat_map (setPort_write b) (firstn n relays)).
Proof.
  intros Hs. apply on_off_events_run. exact Hs.
Qed.

Lemma on_off_pass_witness :
  exists delta,
    relaysControl.controlRelays
      (Bench.env [Bench.relay 2; Bench.relay 3] Bench.report_off)
      {| relaysControl.state := relayState.off; relaysControl.id := 0 |}
      [Bench.client 2; Bench.client 3] (Bench.start 30)
    = (Ok tt, extend (Bench.start 30) delta)
    /\ filter is_setPort_call delta
       = [EvCall 2 (m_setPort false); EvCall 3 (m_setPort false)]
    /\ filter is_transfer delta
       = [EvUsb 2 (report_write (Bench.client 2) mp709.SET_PORT_OFF 100);
          EvUsb 3 (report_write (Bench.client 3) mp709.SET_PORT_OFF 100)].
Proof.
  destruct (on_off_pass
              (Bench.env [Bench.relay 2; Bench.relay 3] Bench.report_off)
              {| relaysControl.state := relayState.off; relaysControl.id := 0 |}
              false [Bench.client 2; Bench.client 3] (Bench.start 30))
    as (res & delta & n & Hrun & _ & Hcalls & _ & Hok & _ & Htr).
  - right. split; reflexivity.
  - assert (Hres : res = Ok tt).
    { assert (H := f_equal fst Hrun). cbn [fst] in H. rewrite <- H.
      reflexivity. }
    destruct (Hok Hres) as [-> _]. subst res.
    exists delta. split; [exact Hrun|]. split; [exact Hcalls|].
    apply Htr. reflexivity.
Defined.

(** X8.  Toggle never writes what it could not read: when [getPort]
    raises on a client, the pass ends there with that exception, in the
    world [getPort] left; no [setPort] call and no mutating transfer has
    been added, and the clients after it are not touched. *)
Theorem toggle_read_failure E control r rest w e w1 :
  relaysControl.state control = relayState.toggle ->
  mp709.getPort E r 100 w = (Raise e, w1) ->
  relaysControl.controlRelays E control (r :: rest) w = (Raise e, w1)
  /\ count is_setPort_call (trace w1) = count is_setPort_call (trace w)
  /\ count is_mutating (trace w1) = count is_mutating (trace w).
Proof.
  intros Hs Hg. split; [|split].
  - cbn [relaysControl.controlRelays]. unfold relaysControl.controlRelay.
    rewrite Hs.
    cbn [Z.eqb Pos.eqb relayState.toggle relayState.on relayState.off orb].
    rewrite !bind_assoc. unfold bind at 1. rewrite Hg. reflexivity.
  - replace w1 with (snd (mp709.getPort E r 100 w)) by (rewrite Hg; reflexivity).
    apply quiet_count. quietly.
  - replace w1 with (snd (mp709.getPort E r 100 w)) by (rewrite Hg; reflexivity).
    apply quiet_count. quietly.
Qed.

Lemma toggle_read_failure_witness :
  relaysControl.controlRelays
    (Bench2.env_no_transfer [Bench.relay 2; Bench.relay 3])
    {| relaysControl.state := relayState.toggle; relaysControl.id := 0 |}
    [Bench.client 2; Bench.client 3] (Bench.start 30)
  = (Raise USBError,
     extend (Bench.start 30)
            [EvCall 2 m_getPort;
             EvUsb 2 (report_write (Bench.client 2) mp709.GET_PORT 100)]).
Proof.
  apply (toggle_read_failure
           (Bench2.env_no_transfer [Bench.relay 2; Bench.relay 3])
           {| relaysControl.state := relayState.toggle; relaysControl.id := 0 |}
           (Bench.client 2) [Bench.client 3] (Bench.start 30)).
  - reflexivity.
  - reflexivity.
Defined.

(** X9.  A pass over a concatenation is the pass over the first list
    followed by the pass over the second, and it stops at the first
    failure: when the pass over the first list raises, the clients of the
    second list are not touched and nothing is undone. *)
Theorem controlRelays_app E control relays1 relays2 w :
  relaysControl.controlRelays E control (relays1 ++ relays2) w
  = (relaysControl.controlRelays E control relays1 ;;
     relaysControl.controlRelays E control relays2) w
  /\ (forall e w1,
        relaysControl.controlRelays E control relays1 w = (Raise e, w1) ->
        relaysControl.controlRelays E control (relays1 ++ relays2) w
        = (Raise e, w1)).
Proof.
  assert (Happ : forall w,
            relaysControl.controlRelays E control (relays1 ++ relays2) w
            = (relaysControl.controlRelays E control relays1 ;;
               relaysControl.controlRelays E control relays2) w).
  { induction relays1 as [|r relays1 IH]; intros w0.
    - reflexivity.
    - cbn [app relaysControl.controlRelays].
      rewrite bind_assoc. rewrite !bind_eq.
      destruct (relaysControl.controlRelay E control r w0) as [[[]|e] w1];
        [apply IH|reflexivity]. }
  split; [apply Happ|].
  intros e w1 Hr. rewrite Happ. unfold bind. rewrite Hr. reflexivity.
Qed.

(** ** Discovery *)

Lemma subseq_app {A} (a1 b1 a2 b2 : list A) :
  subseq a1 b1 -> subseq a2 b2 -> subseq (a1 ++ a2) (b1 ++ b2).
Proof.
  intros H1 H2. induction H1; cbn.
  - exact H2.
  - apply subseq_skip. exact IHsubseq.
  - apply subseq_take. exact IHsubseq.
Qed.

Lemma subseq_In {A} (l1 l2 : list A) :
  subseq l1 l2 -> forall x, In x l1 -> In x l2.
Proof.
  induction 1 as [|y l1 l2 S IH|y l1 l2 S IH]; intros x Hx.
  - exact Hx.
  - right. apply IH. exact Hx.
  - destruct Hx as [->|Hx]; [left; reflexivity|right; apply IH; exact Hx].
Qed.

(** A construction that succeeds returns the opened instance of a device
    of the right identity. *)
Lemma init_ok_shape E device k w c w' :
  mp709.__init__ E device k w = (Ok c, w') ->
  idVendor device = 0x16C0 /\ idProduct device = 0x05DF
  /\ exists i, c = opened device i.
Proof.
  unfold mp709.__init__.
  destruct (idVendor device =? 0x16C0) eqn:Hv;
    destruct (idProduct device =? 0x05DF) eqn:Hp;
    cbn [negb orb]; try discriminate.
  apply Z.eqb_eq in Hv, Hp.
  unfold bind at 1, lift at 1.
  destruct (first (configurations device)) as [conf|e]; [|discriminate].
  unfold bind at 1, lift at 1.
  destruct (first (interfaces conf)) as [alts|e]; [|discriminate].
  unfold bind at 1, lift at 1.
  destruct (first alts) as [i|e]; [|discriminate].
  unfold bind at 1.
  destruct (mp709.open E _ w) as [[s|e] w1] eqn:Ho; [|discriminate].
  change {| mp709.self_id := devnum device; mp709.handle := None;
            mp709.dev := Some device; mp709.intf := Some i;
            mp709.intfNum := interfaceNumber i |}
    with (fresh device i) in Ho.
  destruct (open_fresh_ok _ _ _ _ _ _ Ho) as (c0 & _ & Hs & _).
  assert (Hsame : forall m : M mp709.t,
            (m w1 = (Ok c, w') -> c = s) ->
            m w1 = (Ok c, w') ->
            idVendor device = 0x16C0 /\ idProduct device = 0x05DF
            /\ exists i, c = opened device i).
  { intros m Hm Hr. repeat split; try assumption.
    exists i. rewrite (Hm Hr), Hs. reflexivity. }
  destruct (negb (k =? 0)).
  - apply Hsame. unfold bind at 1.
    destruct (mp709.getInfo E s 100 w1) as [[info|e] w2]; [|discriminate].
    destruct (negb (mp709.info_id info =? k)).
    + intros H. exfalso. revert H. apply then_raise_not_ok.
    + intros [= <- _]. reflexivity.
  - apply Hsame. intros [= <- _]. reflexivity.
Qed.

Lemma enumerate_devices_shape E self devs :
  forall relays w rs w',
    relaysControl.enumerate_devices E self devs relays w = (Ok rs, w') ->
    exists sel,
      rs = relays ++ selected sel
      /\ subseq (map fst sel) devs
      /\ Forall right_identity sel.
Proof.
  induction devs as [|dev devs IH]; intros relays w rs w'.
  - cbn. intros [= <- _]. exists []. cbn. rewrite app_nil_r.
    repeat split; constructor.
  - cbn [relaysControl.enumerate_devices]. unfold bind at 1, attempt.
    destruct (mp709.__init__ E dev (relaysControl.id self) w)
      as [[c|e] w1] eqn:Hi.
    + intros Hr. destruct (IH _ _ _ _ Hr) as (sel & -> & Hsub & Hid).
      destruct (init_ok_shape _ _ _ _ _ _ Hi) as (Hv & Hp & i & ->).
      exists ((dev, i) :: sel). repeat split.
      * rewrite <- app_assoc. reflexivity.
      * cbn. apply subseq_take. exact Hsub.
      * constructor; [split; assumption|exact Hid].
    + destruct e; try discriminate.
      intros Hr. destruct (IH _ _ _ _ Hr) as (sel & -> & Hsub & Hid).
      exists sel. repeat split; try assumption.
      apply subseq_skip. exact Hsub.
Qed.

Lemma enumerate_busses_shape E self bs :
  forall relays w rs w',
    relaysControl.enumerate_busses E self bs relays w = (Ok rs, w') ->
    exists sel,
      rs = relays ++ selected sel
      /\ subseq (map fst sel) (List.concat (map devices bs))
      /\ Forall right_identity sel.
Proof.
  induction bs as [|b bs IH]; intros relays w rs w'.
  - cbn. intros [= <- _]. exists []. cbn. rewrite app_nil_r.
    repeat split; constructor.
  - cbn [relaysControl.enumerate_busses map List.concat]. unfold bind at 1.
    destruct (relaysControl.enumerate_devices E self (devices b) relays w)
      as [[rs1|e] w1] eqn:Hd; [|discriminate].
    intros Hr.
    destruct (enumerate_devices_shape _ _ _ _ _ _ _ Hd) as (s1 & -> & S1 & I1).
    destruct (IH _ _ _ _ Hr) as (s2 & -> & S2 & I2).
    exists (s1 ++ s2). repeat split.
    + unfold selected. rewrite map_app, app_assoc. reflexivity.
    + rewrite map_app. apply subseq_app; assumption.
    + apply Forall_app. split; assumption.
Qed.

Lemma enumerateRelays_shape E control w rs w' :
  relaysControl.enumerateRelays E control w = (Ok rs, w') ->
  rs <> []
  /\ exists sel,
       rs = selected sel
       /\ subseq (map fst sel) (all_devices E)
       /\ Forall right_identity sel.
Proof.
  unfold relaysControl.enumerateRelays, bind at 1, emit. unfold bind at 1.
  destruct (relaysControl.enumerate_busses E control (busses E) [] _)
    as [[rs1|e] w1] eqn:Hb; [|discriminate].
  destruct rs1 as [|c rs1].
  - cbn [List.length Z.of_nat Z.eqb]. intros H. exfalso. revert H.
    apply then_raise_not_ok.
  - replace (Z.of_nat (List.length (c :: rs1)) =? 0) with false
      by (symmetry; apply Z.eqb_neq; cbn [List.length]; lia).
    intros [= <- _]. split; [discriminate|].
    destruct (enumerate_busses_shape _ _ _ _ _ _ _ Hb) as (sel & Hs & S & I).
    exists sel. auto.
Qed.

(** X10.  What [enumerateRelays] returns is never empty; its clients are
    the opened instances of some of the attached devices, in the order of
    the enumeration (bus after bus, device after device), every one of
    them on a device with the identity (0x16C0, 0x05DF) and holding a
    handle on that device. *)
Theorem enumerated_clients E control w rs w' :
  relaysControl.enumerateRelays E control w = (Ok rs, w') ->
  rs <> []
  /\ (exists sel,
        rs = map (fun p => opened (fst p) (snd p)) sel
        /\ subseq (map fst sel) (all_devices E)
        /\ Forall (fun p => idVendor (fst p) = 0x16C0
                            /\ idProduct (fst p) = 0x05DF) sel)
  /\ Forall (fun c => mp709.handle c = Some (mp709.self_id c)
                      /\ exists d, mp709.dev c = Some d
                                   /\ devnum d = mp709.self_id c
                                   /\ In d (all_devices E)) rs.
Proof.
  intros Hr.
  destruct (enumerateRelays_shape _ _ _ _ _ Hr) as (Hne & sel & -> & S & I).
  split; [exact Hne|]. split; [exists sel; auto|].
  apply Forall_forall. intros c Hc. unfold selected in Hc.
  apply in_map_iff in Hc. destruct Hc as ([d i] & <- & Hin).
  split; [reflexivity|]. exists d. repeat split.
  apply (subseq_In _ _ S). apply in_map_iff. exists (d, i). auto.
Qed.

Lemma enumerated_clients_witness :
  let E := Bench.env [Bench.stranger 1; Bench.relay 2; Bench.relay 3]
                     Bench.report_off in
  Forall (fun c => mp709.handle c = Some (mp709.self_id c)
                   /\ exists d, mp709.dev c = Some d
                                /\ devnum d = mp709.self_id c
                                /\ In d (all_devices E))
         [Bench.client 2; Bench.client 3].
Proof.
  cbv zeta.
  apply (enumerated_clients
           (Bench.env [Bench.stranger 1; Bench.relay 2; Bench.relay 3]
                      Bench.report_off)
           relaysControl.__init__ (Bench.start 30)
           [Bench.client 2; Bench.client 3]
           (extend (Bench.start 30)
                   (EvBusses
                    :: open_events (Bench.relay 2) Bench.cfg Bench.ifc
                    ++ open_events (Bench.relay 3) Bench.cfg Bench.ifc))).
  reflexivity.
Defined.

Lemma enumerate_devices_app E self devs1 devs2 :
  forall relays w,
    relaysControl.enumerate_devices E self (devs1 ++ devs2) relays w
    = (rs <- relaysControl.enumerate_devices E self devs1 relays ;;
       relaysControl.enumerate_devices E self devs2 rs) w.
Proof.
  induction devs1 as [|dev devs1 IH]; intros relays w.
  - reflexivity.
  - cbn [app relaysControl.enumerate_devices].
    rewrite bind_assoc. rewrite !bind_eq.
    destruct (attempt (mp709.__init__ E dev (relaysControl.id self)) w)
      as [[[c|e]|e'] w1]; try reflexivity.
    + apply IH.
    + destruct e; try reflexivity. apply IH.
Qed.

Lemma enumerate_busses_app E self bs1 bs2 :
  forall relays w,
    relaysControl.enumerate_busses E self (bs1 ++ bs2) relays w
    = (rs <- relaysControl.enumerate_busses E self bs1 relays ;;
       relaysControl.enumerate_busses E self bs2 rs) w.
Proof.
  induction bs1 as [|b bs1 IH]; intros relays w.
  - reflexivity.
  - cbn [app relaysControl.enumerate_busses].
    rewrite bind_assoc. rewrite !bind_eq.
    destruct (relaysControl.enumerate_devices E self (devices b) relays w)
      as [[rs|e] w1]; [apply IH|reflexivity].
Qed.

(** X11.  Only [ValueError] is skipped during the enumeration.  Take any
    device on any bus: when the enumeration has come to it (the busses
    before its bus and the devices before it on its bus are done, with
    whatever clients they gave) and the construction of its client
    raises anything but [ValueError] (a USB error while the session is
    opened, a response too short for [getInfo], a device without
    configuration), [enumerateRelays] ends with that exception in that
    world: the devices and busses after it are not examined, and the
    clients already found are not returned. *)
Theorem enumeration_aborts E control w bs1 devs1 device devs2 bs2
    found1 w' found w0 e w1 :
  busses E = bs1 ++ {| devices := devs1 ++ device :: devs2 |} :: bs2 ->
  relaysControl.enumerate_busses E control bs1 [] (extend w [EvBusses])
  = (Ok found1, w') ->
  relaysControl.enumerate_devices E control devs1 found1 w' = (Ok found, w0) ->
  mp709.__init__ E device (relaysControl.id control) w0 = (Raise e, w1) ->
  e <> ValueError ->
  relaysControl.enumerateRelays E control w = (Raise e, w1).
Proof.
  intros Hb Hbus Hpre Hi He.
  unfold relaysControl.enumerateRelays, bind at 1, emit. unfold bind at 1.
  rewrite Hb. rewrite enumerate_busses_app. unfold bind at 1.
  unfold extend in Hbus. rewrite Hbus.
  cbn [relaysControl.enumerate_busses devices]. unfold bind at 1.
  rewrite enumerate_devices_app. unfold bind at 1. rewrite Hpre.
  cbn [relaysControl.enumerate_devices]. unfold bind at 1, attempt.
  rewrite Hi. destruct e; try reflexivity. contradiction.
Qed.

Lemma enumeration_aborts_witness :
  relaysControl.enumerateRelays Bench2.env_two_busses
    relaysControl.__init__ (Bench.start 30)
  = (Raise USBError,
     extend (Bench.start 30)
            (EvBusses :: open_events (Bench.relay 2) Bench.cfg Bench.ifc
             ++ [EvCall 3 m_open; EvUsb 3 OpOpen])).
Proof.
  apply (enumeration_aborts Bench2.env_two_busses
           relaysControl.__init__ (Bench.start 30)
           [ {| devices := [Bench.relay 2] |} ]
           [Bench.stranger 1] (Bench.relay 3) [Bench.relay 4] []
           [Bench.client 2]
           (extend (Bench.start 30)
                   (EvBusses :: open_events (Bench.relay 2) Bench.cfg Bench.ifc))
           [Bench.client 2]
           (extend (Bench.start 30)
                   (EvBusses :: open_events (Bench.relay 2) Bench.cfg Bench.ifc))).
  - reflexivity.
  - reflexivity.
  - reflexivity.
  - reflexivity.
  - discriminate.
Defined.

Lemma port_call_of_setPort b d :
  Forall (fun e => is_port_call e = false) d ->
  count (is_setPort_of b) d = 0%nat.
Proof.
  intros F. apply count_none. eapply Forall_impl; [|exact F].
  intros [| | s [] | |]; cbn; try reflexivity; discriminate.
Qed.

(** X12.  A run of the controller under On (respectively Off) never
    calls [setPort] with the other value, whether it completes or not,
    and a run that returns normally has called [setPort(True)]
    (respectively [setPort(False)]) at least once: once for every client
    the enumeration found, and it found at least one. *)
Theorem on_off_main E control b w :
  (relaysControl.state control = relayState.on /\ b = true)
  \/ (relaysControl.state control = relayState.off /\ b = false) ->
  let run := relaysControl.main E control w in
  count (is_setPort_of (negb b)) (trace (snd run))
  = count (is_setPort_of (negb b)) (trace w)
  /\ (fst run = Ok tt ->
      (count (is_setPort_of b) (trace w)
       < count (is_setPort_of b) (trace (snd run)))%nat).
Proof.
  intros Hs run. subst run. unfold relaysControl.main. rewrite bind_eq.
  destruct (quiet_enumerateRelays E control w) as (d1 & Hd1 & F1).
  destruct (relaysControl.enumerateRelays E control w) as [[rs|e] w1] eqn:He;
    cbn [snd] in Hd1; subst w1.
  - destruct (enumerateRelays_shape _ _ _ _ _ He) as (Hne & _).
    destruct (on_off_run E control b Hs rs (extend w d1))
      as (res & d2 & Hrun & N & L & M & Heq).
    rewrite Hrun. cbn [fst snd extend trace].
    rewrite !count_app, !(port_call_of_setPort _ _ F1), N.
    split; [lia|]. intros ->. destruct (Heq eq_refl) as (E1 & _).
    rewrite E1. destruct rs; [contradiction|]. cbn [List.length]. lia.
  - cbn [fst snd extend trace].
    rewrite !count_app, !(port_call_of_setPort _ _ F1).
    split; [lia|discriminate].
Qed.

Lemma on_off_main_witness :
  let run := relaysControl.main
               (Bench.env [Bench.stranger 1; Bench.relay 2] Bench.report_off)
               {| relaysControl.state := relayState.on;
                  relaysControl.id := 0 |}
               (Bench.start 30) in
  count (is_setPort_of false) (trace (snd run)) = 0%nat
  /\ (fst run = Ok tt -> (0 < count (is_setPort_of true) (trace (snd run)))%nat).
Proof.
  apply (on_off_main
           (Bench.env [Bench.stranger 1; Bench.relay 2] Bench.report_off)
           {| relaysControl.state := relayState.on; relaysControl.id := 0 |}
           true (Bench.start 30)).
  left. split; reflexivity.
Defined.

(** ** The command line *)

Lemma usage_run {A} w :
  @usage A w = (Raise (SystemExit 2), extend w usage_lines).
Proof.
  unfold usage, print, sys_exit, bind, emit, raise, extend, usage_lines.
  cbn [trace log_level]. rewrite <- !app_assoc. reflexivity.
Qed.

Lemma version_run {A} w :
  @version A w = (Raise (SystemExit 0), extend w version_lines).
Proof. reflexivity. Qed.

Lemma one_of_cases o a b : one_of o a b = true -> o = a \/ o = b.
Proof.
  unfold one_of. intros H. apply orb_true_iff in H.
  destruct H as [H|H]; apply String.eqb_eq in H; auto.
Qed.

(** The five kinds of options exclude each other. *)
Ltac other_option H :=
  apply one_of_cases in H; destruct H as [H|H]; subst; reflexivity.

Lemma state_not_verbose o :
  one_of o "-s" "--state" = true -> one_of o "-v" "--verbose" = false.
Proof. intros H. other_option H. Qed.

Lemma id_not_verbose o :
  one_of o "-i" "--id" = true -> one_of o "-v" "--verbose" = false.
Proof. intros H. other_option H. Qed.

Lemma id_not_other o :
  one_of o "-i" "--id" = true ->
  one_of o "-h" "--help" = false /\ one_of o "-V" "--version" = false
  /\ one_of o "-s" "--state" = false.
Proof.
  intros H. apply one_of_cases in H.
  destruct H as [H|H]; subst; repeat split.
Qed.

Lemma version_not_help o :
  one_of o "-V" "--version" = true -> one_of o "-h" "--help" = false.
Proof. intros H. other_option H. Qed.

Lemma lookup_states_valid a v :
  relaysControl.lookup a relaysControl.states = Ok v -> valid_state v.
Proof.
  unfold relaysControl.states, valid_state. cbn [relaysControl.lookup].
  destruct (String.eqb "on" a); [intros [= <-]; auto|].
  destruct (String.eqb "off" a); [intros [= <-]; auto|].
  destruct (String.eqb "noChange" a); [intros [= <-]; auto|].
  destruct (String.eqb "toggle" a); [intros [= <-]; auto|].
  discriminate.
Qed.

Lemma setState_ok_inv E control a c w w' :
  relaysControl.setState E control a w = (Ok c, w') ->
  w' = w
  /\ exists v,
       relaysControl.lookup a relaysControl.states = Ok v
       /\ c = {| relaysControl.state := v;
                 relaysControl.id := relaysControl.id control |}.
Proof.
  unfold relaysControl.setState.
  destruct (relaysControl.lookup a relaysControl.states) as [v|e].
  - intros [= <- <-]. eauto.
  - destruct e; try discriminate.
    intros H. exfalso. revert H. apply then_raise_not_ok.
Qed.

(** X13.  When the loop over the options comes to its end, it has left
    no trace: nothing was printed, logged or sent.  Every option passed
    (no help, no version, supported states, ids that parse), the state of
    the controller is one of off, on, noChange, toggle if it was before,
    and the verbosity is max(0, v0 - 10 n) for n options [-v]: three of
    them reach 0 from 30 and further ones change nothing. *)
Theorem main_options_ok E int opts :
  forall control0 v0 w control v w',
    main_options E int opts control0 v0 w = (Ok (control, v), w') ->
    0 <= v0 ->
    w' = w
    /\ v = Z.max 0 (v0 - 10 * Z.of_nat (List.length (filter is_verbose opts)))
    /\ (valid_state (relaysControl.state control0) ->
        valid_state (relaysControl.state control))
    /\ forallb (passes int) opts = true.
Proof.
  induction opts as [|[o a] opts IH]; intros c0 v0 w c v w'.
  - cbn. intros [= <- <- <-] Hv. repeat split; auto. lia.
  - cbn [main_options filter forallb passes]. unfold is_verbose at 1.
    cbn [fst].
    destruct (one_of o "-h" "--help") eqn:Hh;
      [rewrite usage_run; discriminate|].
    destruct (one_of o "-V" "--version") eqn:HV;
      [rewrite version_run; discriminate|].
    destruct (one_of o "-s" "--state") eqn:Hs.
    { rewrite (state_not_verbose o Hs). rewrite bind_eq.
      destruct (relaysControl.setState E c0 a w) as [[c1|e] w1] eqn:Hset;
        [|discriminate].
      destruct (setState_ok_inv _ _ _ _ _ _ Hset) as (-> & s & Hl & ->).
      intros Hr Hv. rewrite Hl.
      destruct (IH _ _ _ _ _ _ Hr Hv) as (-> & -> & Hval & Hp).
      repeat split; auto.
      intros _. apply Hval. cbn. exact (lookup_states_valid _ _ Hl). }
    destruct (one_of o "-i" "--id") eqn:Hi.
    { rewrite (id_not_verbose o Hi). rewrite bind_eq.
      unfold relaysControl.setId.
      destruct (int a) as [n|]; [|discriminate].
      unfold ret at 1. intros Hr Hv.
      destruct (IH _ _ _ _ _ _ Hr Hv) as (-> & -> & Hval & Hp).
      repeat split; auto. }
    destruct (one_of o "-v" "--verbose") eqn:Hverb.
    + intros Hr Hv.
      destruct (IH _ _ _ _ _ _ Hr ltac:(lia)) as (-> & -> & Hval & Hp).
      repeat split; auto. cbn [List.length]. lia.
    + intros Hr Hv.
      destruct (IH _ _ _ _ _ _ Hr Hv) as (-> & -> & Hval & Hp).
      repeat split; auto.
Qed.

Lemma main_options_ok_witness :
  main_options (Bench.env [Bench.relay 2] Bench.report_on) Bench2.int_small
    [("-v", "x"); ("--state", "toggle"); ("-v", "x"); ("-v", "x");
     ("-v", "x"); ("--id", "20")]%string
    relaysControl.__init__ 30 (Bench.start 30)
  = (Ok ({| relaysControl.state := relayState.toggle;
            relaysControl.id := 20 |}, 0), Bench.start 30)
  /\ 0 = Z.max 0 (30 - 10 * 4).
Proof.
  split; [reflexivity|].
  destruct (main_options_ok (Bench.env [Bench.relay 2] Bench.report_on)
              Bench2.int_small
              [("-v", "x"); ("--state", "toggle"); ("-v", "x"); ("-v", "x");
               ("-v", "x"); ("--id", "20")]%string
              relaysControl.__init__ 30 (Bench.start 30)
              {| relaysControl.state := relayState.toggle;
                 relaysControl.id := 20 |} 0 (Bench.start 30))
    as (_ & Hv & _).
  - reflexivity.
  - lia.
  - exact Hv.
Defined.

(** *** Nothing but [sys.exit] raises [SystemExit] *)

Lemma ne_ret {A} (a : A) : never_exits (ret a).
Proof. intros w c. discriminate. Qed.

Lemma ne_raise {A} e :
  (forall c, e <> SystemExit c) -> never_exits (@raise A e).
Proof. intros He w c [= H]. exact (He c H). Qed.

Lemma ne_lift {A} (r : result A) :
  (forall c, r <> Raise (SystemExit c)) -> never_exits (lift r).
Proof. intros Hr w c. cbn. apply Hr. Qed.

Lemma ne_emit e : never_exits (emit e).
Proof. intros w c. discriminate. Qed.

Lemma ne_bind {A B} (m : M A) (k : A -> M B) :
  never_exits m -> (forall a, never_exits (k a)) -> never_exits (bind m k).
Proof.
  intros Hm Hk w c. rewrite bind_eq.
  specialize (Hm w c). destruct (m w) as [[a|e] w1].
  - apply Hk.
  - cbn [fst] in *. intros [= ->]. apply Hm. reflexivity.
Qed.

Lemma ne_attempt {A} (m : M A) : never_exits (attempt m).
Proof. intros w c. unfold attempt. destruct (m w). discriminate. Qed.

Lemma ne_isEnabledFor level : never_exits (log.isEnabledFor level).
Proof. intros w c. discriminate. Qed.

Lemma ne_usb_call E d op : never_exits (mp709.usb_call E d op).
Proof.
  intros w c. unfold mp709.usb_call.
  destruct (usb_error E (trace w) d op); discriminate.
Qed.

Lemma ne_controlMsg E h rt rq buffer v i t :
  never_exits (mp709.controlMsg E h rt rq buffer v i t).
Proof.
  intros w c. unfold mp709.controlMsg, mp709.usb_call.
  destruct (usb_error E (trace w) h _); [discriminate|].
  destruct buffer; discriminate.
Qed.

Lemma first_no_exit {A} (l : list A) c : first l <> Raise (SystemExit c).
Proof. destruct l; discriminate. Qed.

Lemma getitem_no_exit buffer i e :
  getitem buffer i = Raise e -> e = IndexError \/ e = TypeError.
Proof.
  unfold getitem. destruct buffer as [n|bytes].
  - intros [= <-]. auto.
  - destruct (nth_error bytes i); [discriminate|]. intros [= <-]. auto.
Qed.

Lemma getPort_decode_no_exit buffer c :
  mp709.getPort_decode buffer <> Raise (SystemExit c).
Proof.
  unfold mp709.getPort_decode, bindR.
  repeat match goal with
         | |- context [match getitem ?b ?i with _ => _ end] =>
             let H := fresh "H" in
             destruct (getitem b i) eqn:H;
             [|apply getitem_no_exit in H; destruct H; subst; discriminate]
         | |- context [if ?x then _ else _] => destruct x
         end; discriminate.
Qed.

Lemma getInfo_decode_no_exit buffer c :
  mp709.getInfo_decode buffer <> Raise (SystemExit c).
Proof.
  unfold mp709.getInfo_decode, bindR.
  repeat match goal with
         | |- context [match getitem ?b ?i with _ => _ end] =>
             let H := fresh "H" in
             destruct (getitem b i) eqn:H;
             [|apply getitem_no_exit in H; destruct H; subst; discriminate]
         end; discriminate.
Qed.

Ltac no_exit :=
  repeat first
    [ apply ne_ret
    | apply ne_emit
    | apply ne_attempt
    | apply ne_isEnabledFor
    | apply ne_usb_call
    | apply ne_controlMsg
    | apply ne_raise; discriminate
    | apply ne_lift; intros; apply first_no_exit
    | apply ne_lift; intros; apply getPort_decode_no_exit
    | apply ne_lift; intros; apply getInfo_decode_no_exit
    | apply ne_bind; [ | intros ]
    | assumption
    | progress cbv zeta
    | progress unfold mp709.the_handle, mp709.close, mp709.open,
        mp709.setPort, mp709.getPort, mp709.getInfo, mp709.__str__,
        mp709.__init__, log.info, log.error, log.log, log.handle
    | match goal with
      | |- never_exits (match ?x with _ => _ end) => destruct x
      end ].

Lemma ne_init E device k : never_exits (mp709.__init__ E device k).
Proof. no_exit. Qed.

Lemma ne_enumerate_devices E self devs :
  forall relays,
    never_exits (relaysControl.enumerate_devices E self devs relays).
Proof.
  induction devs as [|dev devs IH]; intros relays;
    cbn [relaysControl.enumerate_devices].
  - apply ne_ret.
  - intros w c. rewrite bind_eq. unfold attempt.
    pose proof (ne_init E dev (relaysControl.id self) w) as Hi.
    destruct (mp709.__init__ E dev (relaysControl.id self) w) as [[r|e] w1].
    + apply IH.
    + destruct e; try discriminate; try apply IH.
      exfalso. apply (Hi code). reflexivity.
Qed.

Lemma ne_enumerate_busses E self bs :
  forall relays,
    never_exits (relaysControl.enumerate_busses E self bs relays).
Proof.
  induction bs as [|b bs IH]; intros relays;
    cbn [relaysControl.enumerate_busses].
  - apply ne_ret.
  - apply ne_bind; [apply ne_enumerate_devices|intros; apply IH].
Qed.

Lemma ne_controlRelays E self relays :
  never_exits (relaysControl.controlRelays E self relays).
Proof.
  induction relays as [|r relays IH]; cbn [relaysControl.controlRelays].
  - apply ne_ret.
  - apply ne_bind; [|intros; exact IH].
    unfold relaysControl.controlRelay. no_exit.
Qed.

Lemma ne_main E self : never_exits (relaysControl.main E self).
Proof.
  unfold relaysControl.main, relaysControl.enumerateRelays.
  apply ne_bind; [|intros; apply ne_controlRelays].
  apply ne_bind; [apply ne_emit|intros _].
  apply ne_bind; [apply ne_enumerate_busses|intros rs].
  no_exit.
Qed.

Lemma ne_setState E control a : never_exits (relaysControl.setState E control a).
Proof.
  unfold relaysControl.setState.
  destruct (relaysControl.lookup a relaysControl.states) as [v|e] eqn:Hl.
  - apply ne_ret.
  - apply lookup_raises in Hl. subst e. no_exit.
Qed.

Lemma ne_setId int control a : never_exits (relaysControl.setId int control a).
Proof. unfold relaysControl.setId. no_exit. Qed.

(** From the loop over the options, [SystemExit] comes from [usage] or
    [version] only. *)
Lemma main_options_exit_codes E int opts :
  forall control verbose w c,
    fst (main_options E int opts control verbose w) = Raise (SystemExit c) ->
    c = 0 \/ c = 2.
Proof.
  induction opts as [|[o a] opts IH]; intros control verbose w c;
    cbn [main_options].
  - discriminate.
  - destruct (one_of o "-h" "--help");
      [rewrite usage_run; intros [= <-]; auto|].
    destruct (one_of o "-V" "--version");
      [rewrite version_run; intros [= <-]; auto|].
    destruct (one_of o "-s" "--state").
    { rewrite bind_eq.
      pose proof (ne_setState E control a w c) as Hn.
      destruct (relaysControl.setState E control a w) as [[c1|e] w1];
        [apply IH|]. cbn [fst] in *. intros [= ->]. exfalso. apply Hn. reflexivity. }
    destruct (one_of o "-i" "--id").
    { rewrite bind_eq.
      pose proof (ne_setId int control a w c) as Hn.
      destruct (relaysControl.setId int control a w) as [[c1|e] w1];
        [apply IH|]. cbn [fst] in *. intros [= ->]. exfalso. apply Hn. reflexivity. }
    destruct (one_of o "-v" "--verbose"); apply IH.
Qed.

Lemma log_error_str_ok E s w : fst (log.error E (log.Str s) w) = Ok tt.
Proof.
  unfold log.error, log.log, log.handle, log.isEnabledFor, bind, emit, ret.
  destruct (log_level w <=? logging.ERROR); reflexivity.
Qed.

Lemma failed_exit E w :
  fst ((log.error E (log.Str "Failed") ;; @sys_exit unit 3) w)
  = Raise (SystemExit 3).
Proof.
  rewrite bind_eq. pose proof (log_error_str_ok E "Failed" w) as Hl.
  destruct (log.error E (log.Str "Failed") w) as [[[]|e] w2];
    [reflexivity|discriminate].
Qed.

(** Once [getopt] has answered, [main] is the loop over the options and
    the controller, with every exception but [SystemExit] turned into
    exit code 3. *)
Lemma main_some E getopt int argv opts args w :
  getopt argv = Some (opts, args) ->
  main E getopt int argv w
  = match (cv <- main_options E int opts relaysControl.__init__ 30 ;;
           log.setLevel (snd cv) ;;
           relaysControl.main E (fst cv))
            {| trace := trace w; log_level := logging.NOTSET |} with
    | (Ok _, w1) => (Ok tt, w1)
    | (Raise (SystemExit code), w1) => (Raise (SystemExit code), w1)
    | (Raise _, w1) =>
        (log.error E (log.Str "Failed") ;; @sys_exit unit 3) w1
    end.
Proof.
  intros Hg. unfold main. unfold bind at 1, log.setLevel at 1.
  rewrite Hg. unfold bind at 1, ret at 1.
  unfold bind at 1, attempt.
  destruct ((cv <- main_options E int opts relaysControl.__init__ 30 ;;
             log.setLevel (snd cv) ;;
             relaysControl.main E (fst cv))
              {| trace := trace w; log_level := logging.NOTSET |})
    as [[u|e] w1].
  - reflexivity.
  - destruct e; reflexivity.
Qed.

(** X14.  Whatever the arguments, the devices and the USB stack do, the
    program ends in one of four ways: [main] returns, or it raises
    [SystemExit] with code 0, 2 or 3.  No other exception leaves [main]:
    a missing relay, a USB error, a malformed response, an unsupported
    state or an id that does not parse all end as exit code 3. *)
Theorem main_exit_codes E getopt int argv w :
  fst (main E getopt int argv w) = Ok tt
  \/ exists c,
       fst (main E getopt int argv w) = Raise (SystemExit c)
       /\ (c = 0 \/ c = 2 \/ c = 3).
Proof.
  destruct (getopt argv) as [[opts args]|] eqn:Hg.
  - rewrite (main_some E getopt int argv opts args w Hg).
    set (w0 := {| trace := trace w; log_level := logging.NOTSET |}).
    rewrite bind_eq.
    pose proof (main_options_exit_codes E int opts relaysControl.__init__
                  30 w0) as Hopt.
    destruct (main_options E int opts relaysControl.__init__ 30 w0)
      as [[cv|e] w2].
    + rewrite bind_eq.
      change (log.setLevel (snd cv) w2)
        with (@Ok unit tt, {| trace := trace w2; log_level := snd cv |}).
      cbv iota beta.
      pose proof (ne_main E (fst cv)
                    {| trace := trace w2; log_level := snd cv |}) as Hne.
      destruct (relaysControl.main E (fst cv) _) as [[[]|e] w3].
      * left. reflexivity.
      * right. destruct e as [ | | |key| | | | |code];
          try (exists 3; split; [apply failed_exit|auto]).
        exfalso. apply (Hne code). reflexivity.
    + right. destruct e as [ | | |key| | | | |code];
        try (exists 3; split; [apply failed_exit|auto]).
      exists code. split; [reflexivity|].
      destruct (Hopt code eq_refl); auto.
  - right. exists 2. split; [|auto].
    unfold main. unfold bind at 1, log.setLevel at 1. rewrite Hg.
    unfold log.error, log.log, log.handle, log.isEnabledFor, bind, emit, ret.
    cbn [log_level trace Z.leb Z.compare logging.NOTSET logging.ERROR].
    rewrite usage_run. reflexivity.
Qed.

(** Options that pass only update the controller and the verbosity. *)
Lemma main_options_skip E int pre :
  forallb (passes int) pre = true ->
  forall control0 v0,
  exists control v,
    forall rest w,
      main_options E int (pre ++ rest) control0 v0 w
      = main_options E int rest control v w.
Proof.
  induction pre as [|[o a] pre IH]; intros Hp c0 v0.
  - exists c0, v0. reflexivity.
  - cbn [forallb passes] in Hp. apply andb_true_iff in Hp.
    destruct Hp as [Hoa Hp]. cbn [app main_options].
    destruct (one_of o "-h" "--help"); [discriminate|].
    destruct (one_of o "-V" "--version"); [discriminate|].
    destruct (one_of o "-s" "--state").
    { destruct (relaysControl.lookup a relaysControl.states) as [s|e] eqn:Hl;
        [|discriminate].
      destruct (IH Hp {| relaysControl.state := s;
                         relaysControl.id := relaysControl.id c0 |} v0)
        as (c & v & Hrest).
      exists c, v. intros rest w. rewrite bind_eq.
      unfold relaysControl.setState. rewrite Hl. apply Hrest. }
    destruct (one_of o "-i" "--id").
    { destruct (int a) as [n|] eqn:Hn; [|discriminate].
      destruct (IH Hp {| relaysControl.state := relaysControl.state c0;
                         relaysControl.id := n |} v0)
        as (c & v & Hrest).
      exists c, v. intros rest w. rewrite bind_eq.
      unfold relaysControl.setId. rewrite Hn. apply Hrest. }
    destruct (one_of o "-v" "--verbose"); apply IH; exact Hp.
Qed.

(** X15.  The ways out before the bus is touched.  When [getopt] rejects
    the arguments the program prints the usage and exits with code 2.
    When the first option that does not simply pass is help, it prints
    the usage and exits with 2; when it is version, it prints the version
    line and exits with 0; when it is an id that [int] rejects, it logs
    "Failed" and exits with 3.  In each case the history holds nothing
    else: no enumeration, no USB operation, no client was built. *)
Theorem early_exits E getopt int argv w :
  (getopt argv = None ->
   main E getopt int argv w
   = (Raise (SystemExit 2),
      {| trace := trace w ++ EvLog logging.ERROR LogFormatError :: usage_lines;
         log_level := logging.NOTSET |}))
  /\ (forall pre o a post args,
        getopt argv = Some (pre ++ (o, a) :: post, args) ->
        forallb (passes int) pre = true ->
        (one_of o "-h" "--help" = true ->
         main E getopt int argv w
         = (Raise (SystemExit 2),
            {| trace := trace w ++ usage_lines;
               log_level := logging.NOTSET |}))
        /\ (one_of o "-V" "--version" = true ->
            main E getopt int argv w
            = (Raise (SystemExit 0),
               {| trace := trace w ++ version_lines;
                  log_level := logging.NOTSET |}))
        /\ (one_of o "-i" "--id" = true -> int a = None ->
            main E getopt int argv w
            = (Raise (SystemExit 3),
               {| trace := trace w ++ [EvLog logging.ERROR (LogText "Failed")];
                  log_level := logging.NOTSET |}))).
Proof.
  split.
  - intros Hg. unfold main. unfold bind at 1, log.setLevel at 1. rewrite Hg.
    unfold log.error, log.log, log.handle, log.isEnabledFor, bind, emit, ret.
    cbn [log_level trace Z.leb Z.compare logging.NOTSET logging.ERROR].
    rewrite usage_run. unfold extend. cbn [trace log_level].
    rewrite <- app_assoc. reflexivity.
  - intros pre o a post args Hg Hp.
    rewrite (main_some E getopt int argv _ _ w Hg).
    destruct (main_options_skip E int pre Hp relaysControl.__init__ 30)
      as (c & v & Hskip).
    rewrite bind_eq, Hskip. cbn [main_options].
    split; [|split].
    + intros Hh. rewrite Hh, usage_run. reflexivity.
    + intros HV. rewrite (version_not_help o HV), HV, version_run.
      reflexivity.
    + intros Hi Hn. destruct (id_not_other o Hi) as (-> & -> & ->).
      rewrite Hi, bind_eq. unfold relaysControl.setId. rewrite Hn.
      unfold raise at 1.
      unfold log.error, log.log, log.handle, log.isEnabledFor, sys_exit,
        bind, emit, ret, raise.
      reflexivity.
Qed.

Lemma early_exits_witness :
  main (Bench.env [Bench.relay 2] Bench.report_on)
       (Bench.getopt_pairs [("--state", "on"); ("-v", "x"); ("--id", "relay");
                            ("--help", "x")]%string)
       Bench2.int_small ["--state"; "on"; "-v"; "--id"; "relay"; "--help"]%string
       (Bench.start 30)
  = (Raise (SystemExit 3),
     {| trace := trace (Bench.start 30)
                 ++ [EvLog logging.ERROR (LogText "Failed")];
        log_level := logging.NOTSET |}).
Proof.
  destruct (early_exits (Bench.env [Bench.relay 2] Bench.report_on)
              (Bench.getopt_pairs [("--state", "on"); ("-v", "x");
                                   ("--id", "relay"); ("--help", "x")]%string)
              Bench2.int_small
              ["--state"; "on"; "-v"; "--id"; "relay"; "--help"]%string
              (Bench.start 30)) as [_ H].
  destruct (H [("--state", "on"); ("-v", "x")]%string "--id"%string
              "relay"%string [("--help", "x")]%string [] eq_refl eq_refl)
    as (_ & _ & Hid).
  apply Hid; reflexivity.
Defined.

(** ** Discovery on a stack that behaves *)

Lemma first_interface_some d i :
  first_interface d = Some i ->
  exists conf alts,
    first (configurations d) = Ok conf
    /\ first (interfaces conf) = Ok alts
    /\ first alts = Ok i.
Proof.
  unfold first_interface.
  destruct (configurations d) as [|c cs]; [discriminate|].
  destruct (interfaces c) as [|[|i0 alts] ifs] eqn:Hi; try discriminate.
  intros [= <-]. exists c, (i0 :: alts). rewrite Hi. repeat split.
Qed.

(** One construction on an ideal stack. *)
Lemma init_ideal E rep k d i w :
  ideal E rep ->
  first_interface d = Some i ->
  (8 <= List.length (rep (devnum d)))%nat ->
  exists delta,
    mp709.__init__ E d k w
    = (if device_matches rep k d then Ok (opened d i) else Raise ValueError,
       extend w delta).
Proof.
  intros [Hok Hrep] Hi Hlen. unfold device_matches.
  destruct (idVendor d =? 0x16C0) eqn:Hv;
    [destruct (idProduct d =? 0x05DF) eqn:Hp|].
  - apply Z.eqb_eq in Hv, Hp.
    destruct (first_interface_some d i Hi) as (conf & alts & Hc & Ha & Hf).
    assert (Ho : mp709.open E (fresh d i) w
                 = (Ok (opened d i), extend w (open_events d conf i))).
    { apply open_fresh_complete; [exact Hc|]. repeat split; apply Hok. }
    rewrite (init_after_open E d k w conf alts i _ _ Hv Hp Hc Ha Hf Ho).
    cbn [andb].
    destruct (k =? 0) eqn:Hk; cbn [negb orb]; [eexists; reflexivity|].
    unfold bind at 1.
    rewrite (getInfo_run E (opened d i) (devnum d) 100 _ (rep (devnum d)))
      by (try reflexivity; repeat split; auto).
    rewrite getInfo_decode_long by exact Hlen.
    unfold lift. cbn [mp709.info_id].
    change (byte_at (rep (devnum d)) 7 + byte_at (rep (devnum d)) 6 * 256
            + byte_at (rep (devnum d)) 5 * 65536
            + byte_at (rep (devnum d)) 4 * 16777216)
      with (decoded_id (rep (devnum d))).
    destruct (decoded_id (rep (devnum d)) =? k); cbn [negb].
    + rewrite extend_extend. eexists. reflexivity.
    + destruct (close_then_raise E (opened d i) (devnum d)
                  (extend (extend w (open_events d conf i))
                     (exchange (opened d i) (devnum d) m_getInfo
                        mp709.GET_INFO 100)) eq_refl)
        as (e & Hrun & He).
      rewrite Hrun, (He (Hok _ _ _)), !extend_extend.
      eexists. reflexivity.
  - exists []. rewrite extend_nil. unfold mp709.__init__.
    rewrite Hv, Hp. reflexivity.
  - exists []. rewrite extend_nil. unfold mp709.__init__.
    rewrite Hv. reflexivity.
Qed.

Lemma enumerate_devices_ideal E rep self devs :
  ideal E rep ->
  Forall (well_formed rep) devs ->
  forall relays w,
  exists delta,
    relaysControl.enumerate_devices E self devs relays w
    = (Ok (relays ++ flat_map client_of
                       (filter (device_matches rep (relaysControl.id self))
                               devs)),
       extend w delta).
Proof.
  intros Hideal Hwf. induction Hwf as [|d devs [Hfi Hlen] _ IH];
    intros relays w.
  - exists []. cbn. rewrite app_nil_r, extend_nil. reflexivity.
  - destruct (first_interface d) as [i|] eqn:Hi; [|contradiction].
    cbn [relaysControl.enumerate_devices filter]. rewrite bind_eq.
    unfold attempt.
    destruct (init_ideal E rep (relaysControl.id self) d i w Hideal Hi Hlen)
      as (d1 & Hinit).
    rewrite Hinit.
    destruct (device_matches rep (relaysControl.id self) d).
    + destruct (IH (relays ++ [opened d i]) (extend w d1)) as (d2 & Hrest).
      rewrite Hrest, extend_extend. exists (d1 ++ d2).
      cbn [flat_map]. unfold client_of at 2. rewrite Hi.
      rewrite <- app_assoc. reflexivity.
    + destruct (IH relays (extend w d1)) as (d2 & Hrest).
      rewrite Hrest, extend_extend. exists (d1 ++ d2). reflexivity.
Qed.

Lemma enumerate_busses_ideal E rep self bs :
  ideal E rep ->
  Forall (well_formed rep) (List.concat (map devices bs)) ->
  forall relays w,
  exists delta,
    relaysControl.enumerate_busses E self bs relays w
    = (Ok (relays ++ flat_map client_of
                       (filter (device_matches rep (relaysControl.id self))
                               (List.concat (map devices bs)))),
       extend w delta).
Proof.
  intros Hideal. induction bs as [|b bs IH]; intros Hwf relays w.
  - exists []. cbn. rewrite app_nil_r, extend_nil. reflexivity.
  - cbn [map List.concat] in Hwf. apply Forall_app in Hwf.
    destruct Hwf as [Hb Hbs].
    cbn [relaysControl.enumerate_busses map List.concat]. rewrite bind_eq.
    destruct (enumerate_devices_ideal E rep self (devices b) Hideal Hb relays w)
      as (d1 & Hdev).
    rewrite Hdev.
    destruct (IH Hbs (relays ++ flat_map client_of
                        (filter (device_matches rep (relaysControl.id self))
                                (devices b))) (extend w d1))
      as (d2 & Hrest).
    rewrite Hrest, extend_extend. exists (d1 ++ d2).
    rewrite filter_app, flat_map_app, <- app_assoc. reflexivity.
Qed.

(** What the enumeration returns on an ideal stack. *)
Lemma discovery_found E rep control w :
  ideal E rep ->
  Forall (well_formed rep) (all_devices E) ->
  fst (relaysControl.enumerateRelays E control w)
  = match flat_map client_of
            (filter (device_matches rep (relaysControl.id control))
                    (all_devices E)) with
    | [] => Raise RuntimeWarning
    | c :: rs => Ok (c :: rs)
    end.
Proof.
  intros Hideal Hwf.
  unfold relaysControl.enumerateRelays. rewrite bind_eq.
  unfold emit at 1. rewrite bind_eq.
  destruct (enumerate_busses_ideal E rep control (busses E) Hideal Hwf []
              {| trace := trace w ++ [EvBusses]; log_level := log_level w |})
    as (d & Hrun).
  rewrite Hrun. cbn [app]. unfold all_devices.
  destruct (flat_map client_of _) as [|c rs].
  - cbn [List.length Z.of_nat Z.eqb]. rewrite bind_eq.
    pose proof (log_info_str_ok E "No relay found"
                  (extend {| trace := trace w ++ [EvBusses];
                             log_level := log_level w |} d)) as Hl.
    destruct (log.info E (log.Str "No relay found") _) as [[[]|e] w2];
      [reflexivity|discriminate].
  - replace (Z.of_nat (List.length (c :: rs)) =? 0) with false
      by (symmetry; apply Z.eqb_neq; cbn [List.length]; lia).
    reflexivity.
Qed.


(** X16.  On a stack where no operation fails and every device always
    gives the same answer of at least eight bytes, and where every
    descriptor has an interface, the enumeration finds exactly the
    devices that have the identity (0x16C0, 0x05DF) and, for a filter
    [k <> 0], report the id [k]; it returns their opened clients in the
    order of the enumeration, or raises [RuntimeWarning] when there is
    none. *)
Theorem discovery_selects E rep control w :
  ideal E rep ->
  Forall (well_formed rep) (all_devices E) ->
  let found :=
    flat_map client_of
      (filter (device_matches rep (relaysControl.id control))
              (all_devices E)) in
  fst (relaysControl.enumerateRelays E control w)
  = match found with
    | [] => Raise RuntimeWarning
    | _ :: _ => Ok found
    end.
Proof.
  intros Hideal Hwf found. subst found.
  rewrite (discovery_found E rep control w Hideal Hwf).
  destruct (flat_map client_of _); reflexivity.
Qed.

Lemma discovery_selects_witness :
  fst (relaysControl.enumerateRelays Bench2.env_ids
         {| relaysControl.state := relayState.on; relaysControl.id := 20 |}
         (Bench.start 30))
  = Ok [Bench.client 3].
Proof.
  apply (discovery_selects Bench2.env_ids Bench2.rep_ids
           {| relaysControl.state := relayState.on; relaysControl.id := 20 |}
           (Bench.start 30)).
  - split; reflexivity.
  - repeat constructor; discriminate.
Defined.

(** ** A whole run on a stack that behaves *)






(** X18.  What Toggle puts on the wire: when [getPort] has answered [p]
    on a client with a handle, the next events are the call
    [setPort(not p)] and one write of the SET_PORT report, with 0x19 in
    byte 1 (off) when the relay was read on and 0x00 (on) when it was
    read off; nothing after it in the pass is a mutating transfer. *)
Theorem toggle_writes E control r h w p w1 :
  relaysControl.state control = relayState.toggle ->
  mp709.handle r = Some h ->
  mp709.getPort E r 100 w = (Ok p, w1) ->
  exists d,
    snd (relaysControl.controlRelays E control [r] w)
    = extend w1 (EvCall (mp709.self_id r) (m_setPort (negb p))
                 :: EvUsb h (report_write r
                               (if p then [0xE7; 0x19; 0; 0; 0; 0; 0]
                                else [0xE7; 0x00; 0; 0; 0; 0; 0]) 100)
                 :: d)
    /\ Forall (fun e => is_mutating e = false) d
    /\ Forall (fun e => is_setPort_call e = false) d.
Proof.
  intros Hs Hh Hg.
  rewrite (toggle_run E control r w p w1 Hs Hg).
  unfold mp709.the_handle. rewrite Hh.
  unfold bind at 1, emit at 1.
  unfold bind at 1. unfold bind at 1, ret at 1.
  unfold mp709.controlMsg, mp709.usb_call. cbn [trace log_level].
  set (ev := EvUsb h _).
  assert (Hev : ev = EvUsb h (report_write r
                                (if p then [0xE7; 0x19; 0; 0; 0; 0; 0]
                                 else [0xE7; 0x00; 0; 0; 0; 0; 0]) 100))
    by (destruct p; reflexivity).
  destruct (usb_error E _ h _).
  - exists []. cbn [snd]. rewrite <- Hev. unfold extend. cbn [trace log_level].
    rewrite <- app_assoc. repeat split; constructor.
  - unfold bind at 1, ret at 1. rewrite bind_eq.
    destruct (log_info_obj E r
                {| trace := (trace w1
                             ++ [EvCall (mp709.self_id r) (m_setPort (negb p))])
                            ++ [ev];
                   log_level := log_level w1 |})
      as (d & Hinfo & F1 & F2 & _).
    rewrite Hinfo. exists d. cbn [snd]. rewrite <- Hev.
    unfold extend. cbn [trace log_level]. rewrite <- !app_assoc.
    repeat split; assumption.
Qed.

Lemma toggle_writes_witness :
  exists d,
    snd (relaysControl.controlRelays
           (Bench.env [Bench.relay 2] Bench.report_on)
           {| relaysControl.state := relayState.toggle; relaysControl.id := 0 |}
           [Bench.client 2] (Bench.start 30))
    = extend (extend (Bench.start 30)
                (exchange (Bench.client 2) 2%nat m_getPort mp709.GET_PORT 100))
        (EvCall 2 (m_setPort false)
         :: EvUsb 2 (report_write (Bench.client 2)
                       [0xE7; 0x19; 0; 0; 0; 0; 0] 100)
         :: d)
    /\ Forall (fun e => is_mutating e = false) d
    /\ Forall (fun e => is_setPort_call e = false) d.
Proof.
  apply (toggle_writes (Bench.env [Bench.relay 2] Bench.report_on)
           {| relaysControl.state := relayState.toggle; relaysControl.id := 0 |}
           (Bench.client 2) 2%nat (Bench.start 30) true).
  - reflexivity.
  - reflexivity.
  - reflexivity.
Defined.
